(** * Studio pipeline add-ons: the SVN log reader, the log-fetching modal
      operator, the cache-config factory and the add-on registration code.

    The development embeds the following source functions:
    - [blender_svn/svn_log.py]: [read_svn_log_file], [SVN_fetch_log.invoke],
      [SVN_fetch_log.modal], [SVN_fetch_log_cancel.execute],
      [SVN_UL_log.filter_items], the texts of [SVN_UL_log.draw_item];
    - [cache_manager/cache.py]: [gen_filename_collection],
      [gen_cachepath_collection], [read_json], [save_as_json], [CacheConfig],
      [CacheConfig._add_coll_to_cm_collections],
      [CacheConfigFactory.gen_config_from_scene],
      [CacheConfigFactory.load_config_from_file];
    - [blezou/props.py] and [blender_svn/props.py]: [register], [unregister].

    Python values are modelled as follows.  A [str] is a [string] (characters
    are code points below 256); an [int] is a [Z]; a list is a [list]; a dict
    whose insertion order is observable is an association list; an exception
    is a value of [exn] and a function that may raise returns a [result].
    Mutable host objects (the scene's [svn] property group, the operator
    instance, the files on disk) are fields of explicit state records that
    every function takes and gives back. *)

From Stdlib Require Import ZArith List Bool Lia.
From Stdlib Require Import Strings.String Strings.Ascii Numbers.DecimalString.
Import ListNotations.

Local Open Scope string_scope.
Local Open Scope list_scope.
Local Open Scope Z_scope.

(** ** Exceptions and results *)

Inductive exn : Type :=
| ValueError
| JSONDecodeError
| AssertionError
| IndexError
| KeyError
| StopIteration
| IsADirectoryError
| AttributeError
| TypeError
| FileNotFoundError
| NotADirectoryError
| RuntimeError.

(** [issubclass(e, ValueError)]: [json.JSONDecodeError] derives from
    [ValueError]. *)
Definition is_ValueError (e : exn) : bool :=
  match e with
  | ValueError | JSONDecodeError => true
  | _ => false
  end.

Inductive result (A : Type) : Type :=
| Return (a : A)
| Raise (e : exn).
Arguments Return {A} a.
Arguments Raise {A} e.

Definition bind {A B : Type} (r : result A) (k : A -> result B) : result B :=
  match r with
  | Return a => k a
  | Raise e => Raise e
  end.

Notation "'do' x <- r ; k" := (bind r (fun x => k))
  (at level 10, x pattern, r at level 100, k at level 200).

Definition of_option {A : Type} (e : exn) (o : option A) : result A :=
  match o with
  | Some a => Return a
  | None => Raise e
  end.

(** ** Python primitives on lists and strings *)

Module Py.

(** Normalisation of one bound of a slice over a sequence of length [len]:
    a negative bound counts from the end, and every bound is clamped to
    [0 .. len]. *)
Definition slice_bound (len i : Z) : Z :=
  if i <? 0 then Z.max 0 (len + i) else Z.min i len.

(** [l[start:stop]]; [None] stands for an omitted bound. *)
Definition slice {A : Type} (l : list A) (start stop : option Z) : list A :=
  let len := Z.of_nat (List.length l) in
  let lo := match start with Some i => slice_bound len i | None => 0 end in
  let hi := match stop with Some i => slice_bound len i | None => len end in
  firstn (Z.to_nat (hi - lo)) (skipn (Z.to_nat lo) l).

(** [s[n:]] on a string, for a literal [n >= 0]. *)
Fixpoint str_from (n : nat) (s : string) : string :=
  match n, s with
  | O, _ => s
  | S _, EmptyString => EmptyString
  | S k, String _ s' => str_from k s'
  end.

(** [s[n]] on a string, for a literal [n >= 0]; [IndexError] out of range. *)
Definition str_at (n : nat) (s : string) : result ascii :=
  of_option IndexError (String.get n s).

Definition newline : ascii := "010"%char.

(** [s.replace(c, "")] for a one-character [c]. *)
Fixpoint remove_char (c : ascii) (s : string) : string :=
  match s with
  | EmptyString => EmptyString
  | String a s' =>
      if Ascii.eqb a c then remove_char c s' else String a (remove_char c s')
  end.

Definition carriage_return : ascii := "013"%char.

(** What a file opened with [open(path, 'r')] delivers of the text the file
    holds: with the default [newline=None] every line end of the file, be
    it a newline, a carriage return followed by a newline or a carriage
    return alone, arrives as one newline. *)
Fixpoint universal_newlines (s : string) : string :=
  match s with
  | EmptyString => EmptyString
  | String c rest =>
      if Ascii.eqb c carriage_return then
        match rest with
        | String c' rest' =>
            if Ascii.eqb c' newline then String newline (universal_newlines rest')
            else String newline (universal_newlines rest)
        | EmptyString => String newline EmptyString
        end
      else String c (universal_newlines rest)
  end.

(** The lines a text-mode file object yields from the text it delivers:
    each line keeps its terminating newline, the last one may lack it. *)
Fixpoint readlines (s : string) : list string :=
  match s with
  | EmptyString => []
  | String c s' =>
      if Ascii.eqb c newline then String c EmptyString :: readlines s'
      else match readlines s' with
           | [] => [String c EmptyString]
           | l :: ls => String c l :: ls
           end
  end.

(** [s.split(sep)] for a non-empty [sep]: the pieces between the leftmost
    non-overlapping occurrences of [sep].  [skip] counts the characters of a
    matched separator still to be dropped. *)
Fixpoint split_go (sep : string) (s : string) (skip : nat) : list string :=
  match s with
  | EmptyString => [EmptyString]
  | String c s' =>
      match skip with
      | S k => split_go sep s' k
      | O =>
          if String.prefix sep s
          then EmptyString :: split_go sep s' (Nat.pred (String.length sep))
          else match split_go sep s' O with
               | [] => [String c EmptyString]
               | p :: ps => String c p :: ps
               end
      end
  end.

Definition split (sep s : string) : list string := split_go sep s O.

(** [sep.join(l)]. *)
Fixpoint join (sep : string) (l : list string) : string :=
  match l with
  | [] => EmptyString
  | [x] => x
  | x :: xs => (x ++ sep ++ join sep xs)%string
  end.

(** [c.isspace()] for a code point below 256. *)
Definition is_space (c : ascii) : bool :=
  let n := Z.of_nat (nat_of_ascii c) in
  ((9 <=? n) && (n <=? 13)) || ((28 <=? n) && (n <=? 32))
  || (n =? 133) || (n =? 160).

Definition is_digit (c : ascii) : bool :=
  let n := Z.of_nat (nat_of_ascii c) in (48 <=? n) && (n <=? 57).

Definition digit_value (c : ascii) : Z := Z.of_nat (nat_of_ascii c) - 48.

Fixpoint lstrip (s : string) : string :=
  match s with
  | EmptyString => EmptyString
  | String c s' => if is_space c then lstrip s' else s
  end.

Fixpoint rstrip (s : string) : string :=
  match s with
  | EmptyString => EmptyString
  | String c s' =>
      match rstrip s' with
      | EmptyString => if is_space c then EmptyString else String c EmptyString
      | r => String c r
      end
  end.

Definition strip (s : string) : string := rstrip (lstrip s).

(** The digits of an integer literal: decimal digits, single underscores
    allowed between two digits.  [prev] tells whether the previous character
    was a digit. *)
Fixpoint digits (s : string) (acc : Z) (prev : bool) : option Z :=
  match s with
  | EmptyString => if prev then Some acc else None
  | String c s' =>
      if is_digit c then digits s' (10 * acc + digit_value c) true
      else if Ascii.eqb c "_"%char then
             if prev then digits s' acc false else None
           else None
  end.

(** [int(s)] on a string: surrounding whitespace is dropped, one sign is
    allowed; anything else raises [ValueError]. *)
Definition int (s : string) : result Z :=
  of_option ValueError
    match strip s with
    | String "-"%char d => option_map Z.opp (digits d 0 false)
    | String "+"%char d => digits d 0 false
    | d => digits d 0 false
    end.

(** [str(n)] for an integer: its decimal digits, after a minus sign when it
    is negative. *)
Definition str_of_int (n : Z) : string := NilZero.string_of_int (Z.to_int n).

(** [s.zfill(2)] on the decimal form of a non-negative number. *)
Definition zfill2 (s : string) : string :=
  match s with
  | String c EmptyString => String "0"%char s
  | EmptyString => "00"
  | _ => s
  end.

(** [PurePosixPath(s).name]: the last component of the path, where empty
    components and [.] components do not count. *)
Definition path_parts (s : string) : list string :=
  filter (fun p => negb (String.eqb p "" || String.eqb p ".")) (split "/" s).

Definition path_name (s : string) : string := last (path_parts s) "".

End Py.

(** ** [datetime.strptime(s, '%Y-%m-%d %H:%M:%S')] and the fields read back *)

Module Datetime.

Record datetime : Type := mk_datetime {
  year : Z; month : Z; day : Z; hour : Z; minute : Z; second : Z
}.

(** The longest run of decimal digits at the head of [s], and what is left. *)
Fixpoint digit_run (s : string) : string * string :=
  match s with
  | EmptyString => (EmptyString, EmptyString)
  | String c s' =>
      if Py.is_digit c
      then let (d, r) := digit_run s' in (String c d, r)
      else (EmptyString, s)
  end.

Fixpoint digits_value (s : string) (acc : Z) : Z :=
  match s with
  | EmptyString => acc
  | String c s' => digits_value s' (10 * acc + Py.digit_value c)
  end.

(** A directive that takes [lo_len .. hi_len] digits with a value in
    [lo .. hi].  Every directive of the format is followed by a character
    that is not a digit (or by the end of the text), so the alternatives of
    its pattern match exactly the whole digit run. *)
Definition field (lo_len hi_len : nat) (lo hi : Z) (s : string)
  : option (Z * string) :=
  let (d, r) := digit_run s in
  let n := String.length d in
  let v := digits_value d 0 in
  if (Nat.leb lo_len n && Nat.leb n hi_len && (lo <=? v) && (v <=? hi))%bool
  then Some (v, r) else None.

Definition literal (c : ascii) (s : string) : option string :=
  match s with
  | String a s' => if Ascii.eqb a c then Some s' else None
  | EmptyString => None
  end.

(** [%d]: one or two digits, or a blank and one digit. *)
Definition day_field (s : string) : option (Z * string) :=
  match s with
  | String " "%char s' => field 1 1 1 9 s'
  | _ => field 1 2 1 31 s
  end.

(** The blank of the format matches one or more whitespace characters. *)
Definition blanks (s : string) : option string :=
  match s with
  | String c s' => if Py.is_space c then Some (Py.lstrip s') else None
  | EmptyString => None
  end.

Definition is_leap (y : Z) : bool :=
  ((y mod 4 =? 0) && negb (y mod 100 =? 0)) || (y mod 400 =? 0).

Definition days_in_month (y m : Z) : Z :=
  if m =? 2 then (if is_leap y then 29 else 28)
  else if (m =? 4) || (m =? 6) || (m =? 9) || (m =? 11) then 30
  else 31.

Definition omap {A B : Type} (o : option A) (k : A -> option B) : option B :=
  match o with Some a => k a | None => None end.

(** The text must match the format from its first to its last character,
    and the fields must make a date the [datetime] constructor accepts
    (year 1 to 9999, a day the month has, at most 59 seconds). *)
Definition strptime (s : string) : result datetime :=
  of_option ValueError
    (omap (field 4 4 0 9999 s) (fun '(y, s) =>
     omap (literal "-" s) (fun s =>
     omap (field 1 2 1 12 s) (fun '(m, s) =>
     omap (literal "-" s) (fun s =>
     omap (day_field s) (fun '(d, s) =>
     omap (blanks s) (fun s =>
     omap (field 1 2 0 23 s) (fun '(hh, s) =>
     omap (literal ":" s) (fun s =>
     omap (field 1 2 0 59 s) (fun '(mm, s) =>
     omap (literal ":" s) (fun s =>
     omap (field 1 2 0 61 s) (fun '(ss, s) =>
       match s with
       | EmptyString =>
           if (1 <=? y) && (d <=? days_in_month y m) && (ss <=? 59)
           then Some (mk_datetime y m d hh mm ss) else None
       | _ => None
       end)))))))))))).

(** [strftime("%b")] in the C locale. *)
Definition month_abbr (m : Z) : string :=
  nth (Z.to_nat (m - 1))
    ["Jan"; "Feb"; "Mar"; "Apr"; "May"; "Jun";
     "Jul"; "Aug"; "Sep"; "Oct"; "Nov"; "Dec"] "".

End Datetime.

(** ** [blender_svn/svn_log.py]: the data model *)

(** [SVN_file]: the getters of [name] and [svn_path] fall back to [""], the
    enum [status] defaults to ['normal'], [revision] to [0]. *)
Record SVN_file : Type := mk_SVN_file {
  name : string;
  svn_path : string;
  status : string;
  revision : Z
}.

(** [SVN_log]: the getters fall back to [0] and [""]; [changed_files] is a
    collection of [SVN_file]. *)
Record SVN_log : Type := mk_SVN_log {
  revision_number : Z;
  revision_date : string;
  revision_author : string;
  commit_message : string;
  changed_files : list SVN_file
}.

(** The fields of [context.scene.svn] the log code reads and writes. *)
Record SVN_scene_properties : Type := mk_svn {
  log : list SVN_log;
  log_update_in_progress : bool;
  log_update_cancel_flag : bool
}.

Definition set_log (svn : SVN_scene_properties) (l : list SVN_log) :=
  mk_svn l (log_update_in_progress svn) (log_update_cancel_flag svn).

Definition set_in_progress (svn : SVN_scene_properties) (b : bool) :=
  mk_svn (log svn) b (log_update_cancel_flag svn).

Definition set_cancel_flag (svn : SVN_scene_properties) (b : bool) :=
  mk_svn (log svn) (log_update_in_progress svn) b.

(** ["-" * 72] *)
Definition dashes : string :=
  Eval cbv in String.concat "" (repeat "-" 72).

(** ** [read_svn_log_file] *)

Section ReadLog.

(** [svn_status.SVN_STATUS_CHAR], a table of the module [svn_status], from
    the status letter of a changed path to the name of a status; [None]
    where the dict has no such key. *)
Variable SVN_STATUS_CHAR : ascii -> option string.

(** The first loop: the lines after the first one are grouped into chunks;
    an empty line is skipped, a line of 72 dashes closes the chunk.  The
    arguments [chunk] and [chunks] are the two local lists, newest element
    last. *)
Fixpoint read_chunks (lines : list string) (chunk : list string)
    (chunks : list (list string)) : list (list string) :=
  match lines with
  | [] => chunks
  | line :: rest =>
      let line := Py.remove_char Py.newline line in
      if Nat.eqb (String.length line) 0 then read_chunks rest chunk chunks
      else if String.eqb line dashes then read_chunks rest [] (chunks ++ [chunk])
      else read_chunks rest (chunk ++ [line]) chunks
  end.

(** The inner loop over [file_change_lines].  The first component is the
    collection [log_entry.changed_files] as the loop leaves it, also when it
    raises: an entry is added before its status is looked up. *)
Fixpoint read_changed_files (r_number : Z) (lines : list string)
    (files : list SVN_file) : list SVN_file * result unit :=
  match lines with
  | [] => (files, Return tt)
  | line :: rest =>
      match Py.str_at 3 line with
      | Raise e => (files, Raise e)
      | Return status_char =>
          let file_path := Py.str_from 5 line in
          let entry := mk_SVN_file (Py.path_name file_path) file_path "normal" r_number in
          match SVN_STATUS_CHAR status_char with
          | None => (files ++ [entry], Raise KeyError)
          | Some st =>
              read_changed_files r_number rest
                (files ++ [mk_SVN_file (Py.path_name file_path) file_path st r_number])
          end
      end
  end.

(** The head of a chunk: [r_number, r_author, r_date, r_msg_length =
    chunk[0].split(" | ")], with [r_number = int(r_number[1:])]. *)
Definition chunk_head (chunk : list string) : result (Z * string * string * string) :=
  do line <- of_option IndexError (nth_error chunk 0);
  match Py.split " | " line with
  | [r_number; r_author; r_date; r_msg_length] =>
      do r_number <- Py.int (Py.str_from 1 r_number);
      Return (r_number, r_author, r_date, r_msg_length)
  | _ => Raise ValueError
  end.

Definition revision_date_string (dt : Datetime.datetime) : string :=
  let date_str := (Py.str_of_int (Datetime.year dt) ++ "-"
                   ++ Datetime.month_abbr (Datetime.month dt) ++ "-"
                   ++ Py.str_of_int (Datetime.day dt))%string in
  let time_str := (Py.zfill2 (Py.str_of_int (Datetime.hour dt)) ++ ":"
                   ++ Py.zfill2 (Py.str_of_int (Datetime.minute dt)))%string in
  (date_str ++ " " ++ time_str)%string.

(** The body of the second loop for one chunk.  The first component is the
    entry [svn.log.add()] created, in the state the body leaves it (nothing
    if the body raises before the call); the second is the new
    [previous_rev_number]. *)
Definition read_chunk (previous_rev_number : Z) (chunk : list string)
  : option SVN_log * result Z :=
  match chunk_head chunk with
  | Raise e => (None, Raise e)
  | Return (r_number, r_author, r_date, r_msg_length) =>
      if negb (r_number =? previous_rev_number + 1) then (None, Raise AssertionError)
      else
        match Py.int (hd "" (Py.split " " r_msg_length)) with
        | Raise e => (None, Raise e)
        | Return r_msg_length =>
            match Py.split " " r_date with
            | [date; time; _timezone; _day; _n_day; _mo; _y] =>
                let entry := mk_SVN_log r_number "" r_author "" [] in
                match Datetime.strptime (date ++ " " ++ time)%string with
                | Raise e => (Some entry, Raise e)
                | Return rev_datetime =>
                    let date_time := revision_date_string rev_datetime in
                    let file_change_lines :=
                      Py.slice chunk (Some 2) (Some (- r_msg_length)) in
                    match read_changed_files r_number file_change_lines [] with
                    | (files, Raise e) =>
                        (Some (mk_SVN_log r_number date_time r_author "" files), Raise e)
                    | (files, Return _) =>
                        let msg := Py.join (String Py.newline "")
                                     (Py.slice chunk (Some (- r_msg_length)) None) in
                        (Some (mk_SVN_log r_number date_time r_author msg files),
                         Return r_number)
                    end
                end
            | _ => (None, Raise ValueError)
            end
        end
  end.

(** The second loop.  [entries] is [svn.log], newest entry last. *)
Fixpoint read_entries (previous_rev_number : Z) (chunks : list (list string))
    (entries : list SVN_log) : list SVN_log * result unit :=
  match chunks with
  | [] => (entries, Return tt)
  | chunk :: rest =>
      let (added, r) := read_chunk previous_rev_number chunk in
      let entries := entries ++ match added with Some e => [e] | None => [] end in
      match r with
      | Raise e => (entries, Raise e)
      | Return r_number => read_entries r_number rest entries
      end
  end.

(** The chunks of a file's text: the file is opened for reading in text
    mode, [next(f)] drops the first line and raises [StopIteration] when
    there is none. *)
Definition file_chunks (text : string) : result (list (list string)) :=
  match Py.readlines (Py.universal_newlines text) with
  | [] => Raise StopIteration
  | _ :: lines => Return (read_chunks lines [] [])
  end.

(** [read_svn_log_file(context, filepath)].  [file] is the text the file at
    [filepath] holds, [None] when [filepath.exists()] is false. *)
Definition read_svn_log_file (svn : SVN_scene_properties) (file : option string)
  : SVN_scene_properties * result unit :=
  let svn := set_log svn [] in
  match file with
  | None => (svn, Return tt)
  | Some text =>
      match file_chunks text with
      | Raise e => (svn, Raise e)
      | Return chunks =>
          let (entries, r) := read_entries 0 chunks (log svn) in
          (set_log svn entries, r)
      end
  end.

End ReadLog.

(** A table with the status letters of [svn log --verbose], for running the
    reader on examples. *)
Definition sample_status_char (c : ascii) : option string :=
  if Ascii.eqb c "A" then Some "added"
  else if Ascii.eqb c "D" then Some "deleted"
  else if Ascii.eqb c "M" then Some "modified"
  else if Ascii.eqb c "R" then Some "replaced"
  else None.

Definition nl : string := String Py.newline "".

(** ** [SVN_fetch_log] and [SVN_fetch_log_cancel] *)

(** A [subprocess.Popen] object as one modal step sees it: [returncode] is
    what [poll()] returns during the step ([None] while the process runs),
    [stdout_data] what [communicate()] returns, taken as text that decodes. *)
Record Popen : Type := mk_Popen {
  args : string;
  returncode : option Z;
  stdout_data : string
}.

(** What the operator works on: the scene's [svn] property group, the
    add-on preference [revision_number], the operator's attribute [popen]
    and the text that the file [.svn/svn.log] holds ([None] when the file
    does not exist). *)
Record world : Type := mk_world {
  svn : SVN_scene_properties;
  prefs_revision_number : Z;
  popen : option Popen;
  svn_log_file : option string
}.

(** The calls an operator makes on its surroundings, in order. *)
Inductive event : Type :=
| Report (level message : string)
| ModalHandlerAdd
| Spawn (command : string)
| Poll (p : Popen) (answer : option Z)
| Communicate (p : Popen)
| ReadLogFile
| AppendLogFile (text : string).

Inductive op_return : Type := CANCELLED | RUNNING_MODAL | FINISHED | PASS_THROUGH.

(** [0] for an empty log, otherwise [svn.log[-1].revision_number]. *)
Definition latest_log_rev (l : list SVN_log) : Z :=
  match l with
  | [] => 0
  | e :: l' => revision_number (last l' e)
  end.

Definition MAX_REVS_TO_DOWNLOAD : Z := 10.

(** [f"svn log --verbose -r {first}:{goal}"] *)
Definition svn_log_command (first goal : Z) : string :=
  ("svn log --verbose -r " ++ Py.str_of_int first ++ ":" ++ Py.str_of_int goal)%string.

Definition with_svn (w : world) (s : SVN_scene_properties) : world :=
  mk_world s (prefs_revision_number w) (popen w) (svn_log_file w).

Definition with_popen (w : world) (p : option Popen) : world :=
  mk_world (svn w) (prefs_revision_number w) p (svn_log_file w).

Definition with_file (w : world) (f : option string) : world :=
  mk_world (svn w) (prefs_revision_number w) (popen w) f.

Section FetchLog.

Variable SVN_STATUS_CHAR : ascii -> option string.

(** [execute_svn_command_nofreeze(context, command)[0]]: the process the
    surroundings start for a command. *)
Variable execute_svn_command_nofreeze : string -> Popen.

(** [SVN_fetch_log.invoke] *)
Definition invoke (w : world) : world * list event * result op_return :=
  if log_update_in_progress (svn w) then
    (w, [Report "ERROR" "An SVN Log process is already running!"], Return CANCELLED)
  else
    let current_rev := prefs_revision_number w in
    let latest_log_rev := latest_log_rev (log (svn w)) in
    if latest_log_rev >=? current_rev then
      (w, [Report "INFO" "Log is already up to date, cancelling."], Return CANCELLED)
    else
      let w := with_popen w None in
      let w := with_svn w (set_in_progress (svn w) true) in
      let w := with_svn w (set_cancel_flag (svn w) false) in
      (w,
       [Report "INFO" "Begin updating SVN log, this may take a while. Autosave is now disabled! Click the button again to cancel.";
        ModalHandlerAdd],
       Return RUNNING_MODAL).

(** The part of [modal] after [communicate()]: [w] already has
    [popen = None].  The file is opened in text mode on a POSIX system:
    [f.write] stores the text as it is, and [read_svn_log_file] reads what
    is stored through the translation of line ends. *)
Definition modal_finished (w : world) (current_rev latest_log_rev : Z)
    (out : string) (tr : list event) : world * list event * result op_return :=
  let file_existed := match svn_log_file w with Some _ => true | None => false end in
  let '(w, tr, r) :=
    if file_existed then
      let (s, r) := read_svn_log_file SVN_STATUS_CHAR (svn w) (svn_log_file w) in
      (with_svn w s, tr ++ [ReadLogFile], r)
    else (w, tr, Return tt) in
  match r with
  | Raise e => (w, tr, Raise e)
  | Return _ =>
      if latest_log_rev >=? current_rev then
        (with_svn w (set_in_progress (svn w) false),
         tr ++ [Report "INFO" "Finished updating the SVN log!"],
         Return FINISHED)
      else
        let new_log := if file_existed then Py.str_from 73 out else out in
        let old := match svn_log_file w with Some t => t | None => EmptyString end in
        let w := with_file w (Some (old ++ new_log)%string) in
        let tr := tr ++ [AppendLogFile new_log] in
        let (s, r) := read_svn_log_file SVN_STATUS_CHAR (svn w) (svn_log_file w) in
        let w := with_svn w s in
        let tr := tr ++ [ReadLogFile] in
        match r with
        | Raise e => (w, tr, Raise e)
        | Return _ =>
            match log (svn w) with
            | [] => (w, tr, Raise IndexError)
            | e :: l' =>
                (w,
                 tr ++ [Report "INFO"
                          ("SVN Log now at r" ++ Py.str_of_int (revision_number (last l' e)))%string],
                 Return RUNNING_MODAL)
            end
        end
  end.

(** [SVN_fetch_log.modal] *)
Definition modal (w : world) : world * list event * result op_return :=
  let current_rev := prefs_revision_number w in
  if log_update_cancel_flag (svn w) then
    let w := with_svn w (set_cancel_flag (svn w) false) in
    let w := with_svn w (set_in_progress (svn w) false) in
    (w, [Report "INFO" "Log update cancelled."], Return FINISHED)
  else
    let latest_log_rev := latest_log_rev (log (svn w)) in
    let '(w, p, tr) :=
      match popen w with
      | None =>
          let num_logs_to_get := current_rev - latest_log_rev in
          let num_logs_to_get :=
            if num_logs_to_get >? MAX_REVS_TO_DOWNLOAD
            then MAX_REVS_TO_DOWNLOAD else num_logs_to_get in
          let goal_rev := latest_log_rev + num_logs_to_get in
          let command := svn_log_command (latest_log_rev + 1) goal_rev in
          let p := execute_svn_command_nofreeze command in
          (with_popen w (Some p), p, [Spawn command])
      | Some p => (w, p, [])
      end in
    match returncode p with
    | None => (w, tr ++ [Poll p None], Return PASS_THROUGH)
    | Some code =>
        let tr := tr ++ [Poll p (Some code); Communicate p] in
        let w := with_popen w None in
        modal_finished w current_rev latest_log_rev (stdout_data p) tr
    end.

(** [SVN_fetch_log_cancel.execute] *)
Definition cancel_execute (w : world) : world * list event * result op_return :=
  (with_svn w (set_cancel_flag (svn w) true), [], Return FINISHED).

End FetchLog.

(** ** [pathlib] paths of the POSIX flavour *)

Module Path.

(** A path is its root (["/"], ["//"] or [""]) and its components; empty
    components and [.] components are dropped when a path is built. *)
Record t : Type := mk { root : string; parts : list string }.

Definition of_string (s : string) : t :=
  let r := if String.prefix "//" s && negb (String.prefix "///" s) then "//"
           else if String.prefix "/" s then "/" else "" in
  mk r (Py.path_parts s).

Definition is_absolute (p : t) : bool := negb (String.eqb (root p) "").

(** [p.joinpath(s)]: an absolute [s] replaces [p]. *)
Definition joinpath (p : t) (s : string) : t :=
  let q := of_string s in
  if is_absolute q then q else mk (root p) (parts p ++ parts q).

Definition name (p : t) : string := last (parts p) "".

(** [p.parent]: the path without its last component. *)
Definition parent (p : t) : t := mk (root p) (removelast (parts p)).

(** [p.absolute()], with [cwd] the text of [os.getcwd()]. *)
Definition absolute (cwd : string) (p : t) : t :=
  if is_absolute p then p
  else mk (root (of_string cwd)) (parts (of_string cwd) ++ parts p).

Definition as_posix (p : t) : string :=
  match root p, parts p with
  | EmptyString, [] => "."
  | r, ps => (r ++ Py.join "/" ps)%string
  end.

(** [bool(p)]: the class defines neither [__bool__] nor [__len__], so every
    path object is true. *)
Definition truth (p : t) : bool := true.

End Path.

(** ** JSON values and dicts *)

#[local] Set Warnings "-register-all".

Inductive json : Type :=
| JNull
| JBool (b : bool)
| JNum (n : Z)
| JStr (s : string)
| JList (l : list json)
| JDict (d : list (string * json)).

(** A dict keeps its keys in insertion order. *)
Fixpoint dict_get {V : Type} (k : string) (d : list (string * V)) : option V :=
  match d with
  | [] => None
  | (k', v) :: d' => if String.eqb k k' then Some v else dict_get k d'
  end.

(** [d[k] = v]: the value of an existing key is replaced in place, a new key
    goes to the end. *)
Fixpoint dict_set {V : Type} (k : string) (v : V) (d : list (string * V))
  : list (string * V) :=
  match d with
  | [] => [(k, v)]
  | (k', v') :: d' =>
      if String.eqb k k' then (k, v) :: d' else (k', v') :: dict_set k v d'
  end.

Definition dict_mem {V : Type} (k : string) (d : list (string * V)) : bool :=
  match dict_get k d with Some _ => true | None => false end.

(** [j[k]] and [j[k] = v] on a JSON value. *)
Definition getitem (j : json) (k : string) : result json :=
  match j with
  | JDict d => of_option KeyError (dict_get k d)
  | _ => Raise TypeError
  end.

Definition setitem (j : json) (k : string) (v : json) : result json :=
  match j with
  | JDict d => Return (JDict (dict_set k v d))
  | _ => Raise TypeError
  end.

Definition contains (j : json) (k : string) : result bool :=
  match j with
  | JDict d => Return (dict_mem k d)
  | _ => Raise TypeError
  end.

(** ** [cache_manager/cache.py] *)

(** What is at a path of the disk.  The text of a file is represented by
    what [json.loads] makes of it: a value, or [JSONDecodeError].  The disk
    is addressed by the text of the path that is handed to [open], as
    [Path.as_posix] prints it; it has files and directories, and neither
    permissions nor links. *)
Inductive content : Type :=
| Json (j : json)
| NotJson.

Inductive node : Type :=
| File (c : content)
| Directory.

Definition disk : Type := string -> option node.

Definition disk_write (fs : disk) (path : string) (c : content) : disk :=
  fun p => if String.eqb p path then Some (File c) else fs p.

(** A datablock: [bl_rna.identifier], [name], and the address that makes two
    references the same object. *)
Record ID : Type := mk_ID {
  bl_rna_identifier : string;
  id_name : string;
  as_pointer : nat
}.

Record Library : Type := mk_Library {
  lib_filepath : string;
  users_id : list ID
}.

(** What [gen_config_from_scene] reads from its surroundings. *)
Record bpy_context : Type := mk_context {
  cachedir_path : string;       (* addon_prefs.cachedir_path *)
  data_filepath : string;       (* bpy.data.filepath *)
  data_libraries : list Library;  (* bpy.data.libraries *)
  data_collections : list ID;   (* bpy.data.collections *)
  cache_collections : list ID;  (* props.get_cache_collections(bpy.context) *)
  current_time_string : string; (* get_current_time_string(_DATE_FORMAT) *)
  getcwd : string               (* os.getcwd() *)
}.

Record CacheConfig : Type := mk_CacheConfig {
  filepath : string;
  json_obj : json
}.

Definition _CACHECONFIG_TEMPL : json :=
  JDict [("meta", JDict [("name", JStr ""); ("creation_date", JStr "")]);
         ("libs", JDict [])].

Definition _LIBDICT_TEMPL : json :=
  JDict [("data_from", JDict [("collections", JDict [])])].

Definition gen_filename_collection (collection : ID) : string :=
  (id_name collection ++ ".abc")%string.

Definition gen_cachepath_collection (context : bpy_context) (collection : ID)
  : result Path.t :=
  let cachedir_path := Path.of_string (cachedir_path context) in
  if negb (Path.truth cachedir_path) then Raise ValueError
  else Return (Path.absolute (getcwd context)
                 (Path.joinpath cachedir_path (gen_filename_collection collection))).

(** [read_json]: [open] fails on a missing path or a directory, [json.loads]
    on text that is not JSON. *)
Definition read_json (fs : disk) (path : string) : result json :=
  match fs path with
  | None => Raise FileNotFoundError
  | Some Directory => Raise IsADirectoryError
  | Some (File NotJson) => Raise JSONDecodeError
  | Some (File (Json j)) => Return j
  end.

(** [open(path, 'w+')]: an existing file is opened (and emptied), a
    directory is refused; a new file is created only in a directory that
    exists. *)
Definition open_w (fs : disk) (path : string) : result unit :=
  match fs path with
  | Some Directory => Raise IsADirectoryError
  | Some (File _) => Return tt
  | None =>
      match fs (Path.as_posix (Path.parent (Path.of_string path))) with
      | Some Directory => Return tt
      | Some (File _) => Raise NotADirectoryError
      | None => Raise FileNotFoundError
      end
  end.

(** [save_as_json]: when the file can be opened it then holds the text of
    [data]. *)
Definition save_as_json (fs : disk) (data : json) (path : string) : disk * result unit :=
  match open_w fs path with
  | Raise e => (fs, Raise e)
  | Return _ => (disk_write fs path (Json data), Return tt)
  end.

(** [CacheConfig(filepath)]: the constructor loads the file. *)
Definition CacheConfig_init (fs : disk) (path : string) : result CacheConfig :=
  do j <- read_json fs path;
  Return (mk_CacheConfig path j).

(** [x in l] on datablocks. *)
Definition ID_eqb (a b : ID) : bool := Nat.eqb (as_pointer a) (as_pointer b).

Definition ID_in (x : ID) (l : list ID) : bool := existsb (ID_eqb x) l.

(** [bpy.data.collections[name]] *)
Definition collections_getitem (context : bpy_context) (name : string) : result ID :=
  of_option KeyError
    (find (fun c => String.eqb (id_name c) name) (data_collections context)).

Section CacheConfigFactory.

(** [Path(os.path.abspath(bpy.path.abspath(p))).as_posix()]: the host and
    the operating system resolve the path of a library. *)
Variable abspath_posix : string -> string.

(** The body of the loop over [lib_items], for one item. *)
Definition gen_config_item (context : bpy_context) (libfile : string) (item : ID)
    (_json_obj : json) : result json :=
  if negb (String.eqb (bl_rna_identifier item) "Collection") then Return _json_obj
  else
    do c <- collections_getitem context (id_name item);
    if negb (ID_in c (cache_collections context)) then Return _json_obj
    else
      let coll := item in
      do libs <- getitem _json_obj "libs";
      do present <- contains libs libfile;
      do libs <- (if negb present then setitem libs libfile _LIBDICT_TEMPL
                  else Return libs);
      do lib <- getitem libs libfile;
      do data_from <- getitem lib "data_from";
      do colls <- getitem data_from "collections";
      do present <- contains colls (id_name coll);
      do colls <- (if negb present then setitem colls (id_name coll) (JDict [])
                   else Return colls);
      do cachepath <- gen_cachepath_collection context coll;
      let _col_dict := JDict [("cachefile", JStr (Path.as_posix cachepath))] in
      do colls <- setitem colls (id_name coll) _col_dict;
      do data_from <- setitem data_from "collections" colls;
      do lib <- setitem lib "data_from" data_from;
      do libs <- setitem libs libfile lib;
      setitem _json_obj "libs" libs.

Fixpoint gen_config_items (context : bpy_context) (libfile : string)
    (lib_items : list ID) (_json_obj : json) : result json :=
  match lib_items with
  | [] => Return _json_obj
  | item :: rest =>
      do _json_obj <- gen_config_item context libfile item _json_obj;
      gen_config_items context libfile rest _json_obj
  end.

Fixpoint gen_config_libraries (context : bpy_context) (libraries : list Library)
    (_json_obj : json) : result json :=
  match libraries with
  | [] => Return _json_obj
  | lib :: rest =>
      let libfile := abspath_posix (lib_filepath lib) in
      do _json_obj <- gen_config_items context libfile (users_id lib) _json_obj;
      gen_config_libraries context rest _json_obj
  end.

(** [CacheConfigFactory.gen_config_from_scene] *)
Definition gen_config_from_scene (context : bpy_context) (fs : disk) (path : string)
  : disk * result CacheConfig :=
  let _json_obj := _CACHECONFIG_TEMPL in
  let r :=
    do meta <- getitem _json_obj "meta";
    do meta <- setitem meta "name"
                 (JStr (Path.name (Path.of_string (data_filepath context))));
    do meta <- setitem meta "creation_date" (JStr (current_time_string context));
    do _json_obj <- setitem _json_obj "meta" meta;
    gen_config_libraries context (data_libraries context) _json_obj in
  match r with
  | Raise e => (fs, Raise e)
  | Return _json_obj =>
      match save_as_json fs _json_obj path with
      | (fs, Raise e) => (fs, Raise e)
      | (fs, Return _) => (fs, CacheConfig_init fs path)
      end
  end.

End CacheConfigFactory.

(** [CacheConfigFactory.load_config_from_file] *)
Definition load_config_from_file (fs : disk) (path : string) : result CacheConfig :=
  match fs path with
  | None => Raise ValueError
  | Some _ => CacheConfig_init fs path
  end.


Definition sample_context : bpy_context :=
  mk_context "/render/cache" "/projects/film/shot_010.blend"
    [mk_Library "/projects/lib/chars.blend"
       [mk_ID "Collection" "hero" 1; mk_ID "Object" "hero_rig" 2;
        mk_ID "Collection" "villain" 3];
     mk_Library "/projects/lib/props.blend" [mk_ID "Collection" "chair" 4]]
    [mk_ID "Collection" "hero" 1; mk_ID "Collection" "villain" 3;
     mk_ID "Collection" "chair" 4]
    [mk_ID "Collection" "hero" 1; mk_ID "Collection" "chair" 4]
    "2021-03-04T10:11:12" "/home/artist".

(** ** [blezou/props.py] and [blender_svn/props.py]: registration *)

(** [bpy.props.PointerProperty(name=..., type=..., description=...)] *)
Record PointerProperty : Type := mk_PointerProperty {
  pp_name : string;
  pp_type : string;
  pp_description : string
}.

(** The four module globals of [blezou/props.py]: [None] stands for a
    freshly built [ZSequence()], [ZShot()], [ZAsset()] or [ZAssetType()],
    [Some id] for the object loaded for a backend id. *)
Record blezou_cache : Type := mk_blezou_cache {
  _ZSEQUENCE_ACTIVE : option string;
  _ZSHOT_ACTIVE : option string;
  _ZASSET_ACTIVE : option string;
  _ZASSET_TYPE_ACTIVE : option string
}.

(** The part of the host the two modules install into: the classes
    registered with [bpy.utils], the attributes set on [bpy.types.Sequence]
    and [bpy.types.Scene], and the list [bpy.app.handlers.load_post]. *)
Record host : Type := mk_host {
  registered_classes : list string;
  Sequence_attrs : list (string * PointerProperty);
  Scene_attrs : list (string * PointerProperty);
  load_post : list string;
  cache_variables : blezou_cache
}.

Definition mem (x : string) (l : list string) : bool := existsb (String.eqb x) l.

(** [bpy.utils.register_class]: [ValueError] for a class that is registered
    already. *)
Definition register_class (cls : string) (h : host) : result host :=
  if mem cls (registered_classes h) then Raise ValueError
  else Return (mk_host (registered_classes h ++ [cls]) (Sequence_attrs h)
                 (Scene_attrs h) (load_post h) (cache_variables h)).

(** [bpy.utils.unregister_class]: [RuntimeError] for a class that is not
    registered. *)
Definition unregister_class (cls : string) (h : host) : result host :=
  if mem cls (registered_classes h)
  then Return (mk_host (filter (fun c => negb (String.eqb c cls)) (registered_classes h))
                 (Sequence_attrs h) (Scene_attrs h) (load_post h) (cache_variables h))
  else Raise RuntimeError.

Fixpoint for_each (f : string -> host -> result host) (l : list string) (h : host)
  : result host :=
  match l with
  | [] => Return h
  | x :: l' => do h <- f x h; for_each f l' h
  end.

Fixpoint dict_del {V : Type} (k : string) (d : list (string * V)) : list (string * V) :=
  match d with
  | [] => []
  | (k', v) :: d' => if String.eqb k k' then d' else (k', v) :: dict_del k d'
  end.

Definition clear_cache_variables (h : host) : host :=
  mk_host (registered_classes h) (Sequence_attrs h) (Scene_attrs h) (load_post h)
    (mk_blezou_cache None None None None).

Module Blezou.

Definition classes : list string :=
  ["BZ_PopertyGroup_SEQ_Shot"; "BZ_PopertyGroup_BlezouData"].

Definition load_post_handler : string := "load_post_handler".

Definition register (h : host) : result host :=
  do h <- for_each register_class classes h;
  let h := mk_host (registered_classes h)
             (dict_set "blezou"
                (mk_PointerProperty "Blezou" "BZ_PopertyGroup_SEQ_Shot"
                   "Metadata that is required for blezou") (Sequence_attrs h))
             (Scene_attrs h) (load_post h) (cache_variables h) in
  let h := mk_host (registered_classes h) (Sequence_attrs h)
             (dict_set "blezou"
                (mk_PointerProperty "Blezou" "BZ_PopertyGroup_BlezouData"
                   "Metadata that is required for blezou") (Scene_attrs h))
             (load_post h) (cache_variables h) in
  Return (mk_host (registered_classes h) (Sequence_attrs h) (Scene_attrs h)
            (load_post h ++ [load_post_handler]) (cache_variables h)).

Definition unregister (h : host) : result host :=
  do h <- for_each unregister_class (rev classes) h;
  Return (clear_cache_variables h).

End Blezou.

Module Svn.

Definition register (h : host) : result host :=
  Return (mk_host (registered_classes h) (Sequence_attrs h)
            (dict_set "svn" (mk_PointerProperty "" "SVN_scene_properties" "")
               (Scene_attrs h))
            (load_post h) (cache_variables h)).

(** [del bpy.types.Scene.svn]: [AttributeError] when the attribute is not
    there. *)
Definition unregister (h : host) : result host :=
  if dict_mem "svn" (Scene_attrs h)
  then Return (mk_host (registered_classes h) (Sequence_attrs h)
                 (dict_del "svn" (Scene_attrs h)) (load_post h) (cache_variables h))
  else Raise AttributeError.

End Svn.

(** A host into which nothing was installed yet. *)
Definition fresh_host : host :=
  mk_host [] [] [] [] (mk_blezou_cache None None None None).

(** ** The log file and its records, as the specification words them

    The definitions of this part follow the wording of the specification,
    to be compared with the reader above. *)

(** The text of a file whose lines are [ls], each closed by a newline. *)
Fixpoint lines_text (ls : list string) : string :=
  match ls with
  | [] => EmptyString
  | l :: rest => (l ++ nl ++ lines_text rest)%string
  end.

(** A line with its newline. *)
Definition line_text (l : string) : string := (l ++ nl)%string.

(** A header line followed by entries, each entry followed by a line of 72
    dashes. *)
Definition log_text (header : string) (entries : list (list string)) : string :=
  lines_text (header :: List.concat (map (fun e => e ++ [dashes]) entries)).



Fixpoint has_char (c : ascii) (s : string) : bool :=
  match s with
  | EmptyString => false
  | String a s' => Ascii.eqb a c || has_char c s'
  end.

(** A line of a text file: it holds no line end, neither a newline nor a
    carriage return. *)
Definition text_line (l : string) : bool :=
  negb (has_char Py.newline l) && negb (has_char Py.carriage_return l).

(** A line of the text of an entry: a line that is not the dashes.  It may
    be empty. *)
Definition entry_line (l : string) : bool :=
  text_line l && negb (String.eqb l dashes).

(** The lines of an entry are its lines that are not empty. *)
Definition nonblank (l : string) : bool := negb (Nat.eqb (String.length l) 0).

Definition entry_lines (e : list string) : list string := filter nonblank e.












(** The revision numbers of the chunks of a file are consecutive from 1:
    wherever the first line of chunk [i] (counted from 0) gives a revision
    number, it is [i + 1]. *)
Definition revisions_consecutive (chunks : list (list string)) : Prop :=
  forall i chunk n author r_date len,
    nth_error chunks i = Some chunk ->
    chunk_head chunk = Return (n, author, r_date, len) ->
    n = Z.of_nat i + 1.

(** ** Sample inputs *)


Definition entry_r1 : list string :=
  ["r1 | bob | 2022-01-05 10:07:33 +0100 (Wed, 05 Jan 2022) | 1 line";
   "Changed paths:";
   "   A /trunk/a.blend";
   "   M /trunk/lib/b.blend";
   "first commit"].

Definition entry_r2 : list string :=
  ["r2 | alice | 2022-02-15 09:00:01 +0100 (Tue, 15 Feb 2022) | 2 lines";
   "Changed paths:";
   "   D /trunk/a.blend";
   "remove";
   "the file"].

(** The two entries as [svn log --verbose] prints them, with an empty line
    before the message. *)
Definition svn_entry_r1 : list string :=
  ["r1 | bob | 2022-01-05 10:07:33 +0100 (Wed, 05 Jan 2022) | 1 line";
   "Changed paths:";
   "   A /trunk/a.blend";
   "   M /trunk/lib/b.blend";
   "";
   "first commit"].

Definition svn_entry_r2 : list string :=
  ["r2 | alice | 2022-02-15 09:00:01 +0100 (Tue, 15 Feb 2022) | 2 lines";
   "Changed paths:";
   "   D /trunk/a.blend";
   "";
   "remove";
   "the file"].


Definition entry_r1_bad_date : list string :=
  ["r1 | bob | yesterday | 1 line";
   "Changed paths:";
   "   A /trunk/a.blend";
   "first commit"].

Definition entry_r3 : list string :=
  ["r3 | alice | 2022-02-15 09:00:01 +0100 (Tue, 15 Feb 2022) | 1 line";
   "Changed paths:";
   "   D /trunk/a.blend";
   "remove"].

Definition svn0 : SVN_scene_properties := mk_svn [] false false.

(** The records of [entry_r1] and [entry_r2]. *)
Definition record_r1 : SVN_log :=
  mk_SVN_log 1 "2022-Jan-5 10:07" "bob" "first commit"
    [mk_SVN_file "a.blend" "/trunk/a.blend" "added" 1;
     mk_SVN_file "b.blend" "/trunk/lib/b.blend" "modified" 1].

Definition record_r2 : SVN_log :=
  mk_SVN_log 2 "2022-Feb-15 09:00" "alice" (String.concat nl ["remove"; "the file"])
    [mk_SVN_file "a.blend" "/trunk/a.blend" "deleted" 2].

(** ** Library items whose name cannot be looked up *)

(** The item is a collection and [bpy.data.collections] has no collection of
    its name. *)
Definition name_missing (context : bpy_context) (item : ID) : bool :=
  String.eqb (bl_rna_identifier item) "Collection"
  && match find (fun c => String.eqb (id_name c) (id_name item))
             (data_collections context) with
     | Some _ => false
     | None => true
     end.

Definition any_name_missing (context : bpy_context) : bool :=
  existsb (fun lib => existsb (name_missing context) (users_id lib))
    (data_libraries context).

(** ** The cache configuration, as the specification words it *)

(** The cache directory joined with [<collection name>.abc]. *)
Definition cachefile (context : bpy_context) (name : string) : string :=
  Path.as_posix
    (Path.absolute (getcwd context)
       (Path.joinpath (Path.of_string (cachedir_path context)) (name ++ ".abc")%string)).


(** The amended wording: a library item counts when it is a collection and
    the collection that [bpy.data.collections] holds under its name is in
    the scene's list of cache collections. *)
Definition cached_by_name (context : bpy_context) (item : ID) : bool :=
  String.eqb (bl_rna_identifier item) "Collection"
  && match collections_getitem context (id_name item) with
     | Return c => ID_in c (cache_collections context)
     | Raise _ => false
     end.



(** The [libs] mapping seen as a dict from library files to dicts from
    collection names to values, and the JSON value it stands for. *)
Definition lib_json (colls : list (string * json)) : json :=
  JDict [("data_from", JDict [("collections", JDict colls)])].

Definition libs_json (m : list (string * list (string * json))) : list (string * json) :=
  map (fun e => (fst e, lib_json (snd e))) m.

Definition config_json (meta : json) (m : list (string * list (string * json))) : json :=
  JDict [("meta", meta); ("libs", JDict (libs_json m))].


Definition add_coll {V : Type} (f n : string) (v : V)
    (m : list (string * list (string * V))) : list (string * list (string * V)) :=
  dict_set f (dict_set n v (match dict_get f m with Some c => c | None => [] end)) m.

Definition col_dict (context : bpy_context) (name : string) : json :=
  JDict [("cachefile", JStr (cachefile context name))].

Definition add_item (context : bpy_context) (m : list (string * list (string * json)))
    (e : string * ID) : list (string * list (string * json)) :=
  if cached_by_name context (snd e)
  then add_coll (fst e) (id_name (snd e)) (col_dict context (id_name (snd e))) m
  else m.

(** Every item of every library, with the file of its library. *)
Definition lib_items (abspath_posix : string -> string) (libraries : list Library)
  : list (string * ID) :=
  flat_map (fun lib => map (fun item => (abspath_posix (lib_filepath lib), item))
                         (users_id lib)) libraries.

(** ** Sample steps of the operator *)

(** The events of the part of a modal step that follows [communicate()]. *)
Definition after_communicate (e : event) : bool :=
  match e with
  | Report _ _ | ReadLogFile | AppendLogFile _ => true
  | _ => false
  end.

(** A process that still runs, and one that ended with the sample log as its
    output. *)
Definition running_process (command : string) : Popen :=
  mk_Popen command None EmptyString.

Definition finished_process (command : string) : Popen :=
  mk_Popen command (Some 0) (log_text dashes [entry_r1; entry_r2]).

(** The operator was invoked and the repository is at revision 25. *)
Definition world_started : world :=
  mk_world (mk_svn [] true false) 25 None None.

(** The same with a process that runs. *)
Definition world_polling : world :=
  mk_world (mk_svn [] true false) 25
    (Some (running_process (svn_log_command 1 10))) None.

(** Before the operator is invoked. *)
Definition world_idle : world := mk_world svn0 25 None None.

(** The process has ended with the second entry as its output; the log and
    the log file hold the first one. *)
Definition world_finished_behind : world :=
  mk_world (mk_svn [record_r1] true false) 25
    (Some (mk_Popen "svn log" (Some 0) (log_text dashes [svn_entry_r2])))
    (Some (log_text dashes [svn_entry_r1])).

(** The process has ended and the log is at the current revision. *)
Definition world_finished_done : world :=
  mk_world (mk_svn [record_r1; record_r2] true false) 2
    (Some (mk_Popen "svn log" (Some 1) ""))
    (Some (log_text dashes [svn_entry_r1; svn_entry_r2])).

(** The revisions that [svn log -r first:goal] asks for: those from [first]
    to [goal], both included, in ascending or in descending order. *)
Definition revisions_requested (first goal : Z) : Z := Z.abs (goal - first) + 1.

(** No process runs, the log ends at revision 50 and the current revision
    is 3. *)
Definition world_ahead : world :=
  mk_world (mk_svn [mk_SVN_log 50 "2022-Jan-5 10:07" "bob" "fifty" []] true false)
    3 None None.

(** No process runs and the log has reached the current revision. *)
Definition world_caught_up : world :=
  mk_world (mk_svn [record_r1; record_r2] true false) 2 None
    (Some (log_text dashes [svn_entry_r1; svn_entry_r2])).

(** ** Sample disks and hosts *)

(** A disk with the directory [/tmp] and nothing in it. *)
Definition disk_tmp : disk :=
  fun p => if String.eqb p "/" || String.eqb p "/tmp" then Some Directory else None.

(** The same with a file whose text is not JSON. *)
Definition disk_not_json : disk :=
  disk_write disk_tmp "/tmp/cacheconfig.json" NotJson.

(** The same with a file that holds the JSON text of an empty object. *)
Definition disk_json : disk :=
  disk_write disk_tmp "/tmp/cacheconfig.json" (Json (JDict [])).

(** ** [SVN_UL_log]: what the list of log entries shows *)

(** [c[i]] on a collection of the host: a negative index counts from the
    end, [IndexError] out of range. *)
Definition collection_getitem {A : Type} (c : list A) (i : Z) : result A :=
  let len := Z.of_nat (List.length c) in
  let j := if i <? 0 then len + i else i in
  if (0 <=? j) && (j <? len) then of_option IndexError (nth_error c (Z.to_nat j))
  else Raise IndexError.

(** [l[idx] = v] on a list, for [idx >= 0]: [IndexError] out of range. *)
Fixpoint list_setitem {A : Type} (l : list A) (idx : nat) (v : A) : result (list A) :=
  match l, idx with
  | [], _ => Raise IndexError
  | _ :: l', O => Return (v :: l')
  | x :: l', S k => do r <- list_setitem l' k v; Return (x :: r)
  end.

(** The inner loop of [filter_items]: it breaks at the first changed file
    whose path is the one looked for. *)
Fixpoint affects (path : string) (files : list SVN_file) : bool :=
  match files with
  | [] => false
  | affected_file :: rest =>
      if String.eqb (svn_path affected_file) path then true else affects path rest
  end.

(** The outer loop of [filter_items], over [enumerate(svn.log)] from index
    [idx] on. *)
Fixpoint filter_entries (path : string) (bitflag : Z) (idx : nat)
    (entries : list SVN_log) (flt_flags : list Z) : result (list Z) :=
  match entries with
  | [] => Return flt_flags
  | log_entry :: rest =>
      if affects path (changed_files log_entry) then
        do flt_flags <- list_setitem flt_flags idx bitflag;
        filter_entries path bitflag (S idx) rest flt_flags
      else filter_entries path bitflag (S idx) rest flt_flags
  end.

(** [SVN_UL_log.filter_items].  [n_items] is [len(getattr(data, propname))],
    [bitflag] is [self.bitflag_filter_item]; [external_files] and
    [active_index] are [svn.external_files] and
    [svn.external_files_active_index], [entries] is [svn.log]. *)
Definition filter_items (bitflag : Z) (n_items : nat) (external_files : list SVN_file)
    (active_index : Z) (entries : list SVN_log) : result (list Z * list Z) :=
  let flt_neworder := [] in
  let flt_flags := repeat 0 n_items in
  do active_file <- collection_getitem external_files active_index;
  do flt_flags <- filter_entries ("/" ++ svn_path active_file)%string bitflag 0
                    entries flt_flags;
  Return (flt_flags, flt_neworder).

(** The two texts [SVN_UL_log.draw_item] computes for an entry: the date
    column, [revision_date.split(" ")[0][5:]], and the message column, the
    first line of the commit message. *)
Definition draw_item_date (log_entry : SVN_log) : string :=
  Py.str_from 5 (hd "" (Py.split " " (revision_date log_entry))).

Definition draw_item_message (log_entry : SVN_log) : string :=
  let commit_msg := commit_message log_entry in
  if has_char Py.newline commit_msg then hd "" (Py.split nl commit_msg)
  else commit_msg.

(** ** [CacheConfig._add_coll_to_cm_collections] *)

(** An item of [scene.cm_collections], and the two properties of the scene
    the method works on. *)
Record cm_item : Type := mk_cm_item {
  item_name : string;
  coll_ptr : ID
}.

Record cm_scene : Type := mk_cm_scene {
  cm_collections : list cm_item;
  cm_collections_index : Z
}.

Definition _add_coll_to_cm_collections (scn : cm_scene) (coll : ID) : cm_scene * ID :=
  if existsb (String.eqb (id_name coll)) (map item_name (cm_collections scn))
  then (scn, coll)
  else
    let item := mk_cm_item (id_name coll) coll in
    let items := cm_collections scn ++ [item] in
    (mk_cm_scene items (Z.of_nat (List.length items) - 1), coll).

(** * Properties *)

(** ** Text, lines and chunks *)

Lemma has_char_app (c : ascii) (a b : string) :
  has_char c (a ++ b) = (has_char c a || has_char c b)%bool.
Proof.
  induction a as [|x a IH]; cbn [append has_char]; [reflexivity|].
  rewrite IH, orb_assoc. reflexivity.
Qed.

(** Text without a carriage return is delivered as it is. *)
Lemma universal_newlines_id (s : string) :
  has_char Py.carriage_return s = false -> Py.universal_newlines s = s.
Proof.
  induction s as [|c s IH]; intros H; [reflexivity|].
  cbn [has_char] in H. apply orb_false_iff in H as [Hc Hs].
  cbn [Py.universal_newlines]. rewrite Hc, (IH Hs). reflexivity.
Qed.

Lemma text_line_inv (l : string) :
  text_line l = true ->
  has_char Py.newline l = false /\ has_char Py.carriage_return l = false.
Proof.
  unfold text_line. intros H. apply andb_true_iff in H as [H1 H2].
  split; apply negb_true_iff; assumption.
Qed.

Lemma lines_text_no_return (ls : list string) :
  Forall (fun l => text_line l = true) ls ->
  has_char Py.carriage_return (lines_text ls) = false.
Proof.
  induction 1 as [|l ls Hl _ IH]; cbn [lines_text]; [reflexivity|].
  apply text_line_inv in Hl as [_ Hl].
  rewrite !has_char_app, Hl, IH. reflexivity.
Qed.

Lemma readlines_line (l rest : string) :
  has_char Py.newline l = false ->
  Py.readlines (l ++ nl ++ rest)%string = (l ++ nl)%string :: Py.readlines rest.
Proof.
  induction l as [|c l IH]; intros H.
  - reflexivity.
  - cbn [has_char] in H. apply orb_false_iff in H as [Hc Hl].
    cbn [append Py.readlines]. rewrite Hc, (IH Hl). reflexivity.
Qed.

Lemma readlines_lines_text (ls : list string) :
  Forall (fun l => has_char Py.newline l = false) ls ->
  Py.readlines (lines_text ls) = map line_text ls.
Proof.
  induction 1 as [|l ls Hl _ IH]; cbn [lines_text map].
  - reflexivity.
  - rewrite (readlines_line _ _ Hl), IH. reflexivity.
Qed.

(** The lines of a text that was put together from lines. *)
Lemma file_lines_text (ls : list string) :
  Forall (fun l => text_line l = true) ls ->
  Py.readlines (Py.universal_newlines (lines_text ls)) = map line_text ls.
Proof.
  intros H. rewrite (universal_newlines_id _ (lines_text_no_return ls H)).
  apply readlines_lines_text.
  eapply Forall_impl; [|exact H]. intros l Hl. apply text_line_inv in Hl. tauto.
Qed.

Lemma remove_newline_line (l : string) :
  has_char Py.newline l = false ->
  Py.remove_char Py.newline (l ++ nl)%string = l.
Proof.
  induction l as [|c l IH]; intros H.
  - reflexivity.
  - cbn [has_char] in H. apply orb_false_iff in H as [Hc Hl].
    cbn [append Py.remove_char]. rewrite Hc, (IH Hl). reflexivity.
Qed.

Lemma entry_line_inv (l : string) :
  entry_line l = true ->
  has_char Py.newline l = false /\ String.eqb l dashes = false.
Proof.
  unfold entry_line. intros H. apply andb_true_iff in H as [H1 H2].
  apply text_line_inv in H1 as [H1 _].
  split; [assumption|apply negb_true_iff; assumption].
Qed.

Lemma entry_line_text_line (l : string) : entry_line l = true -> text_line l = true.
Proof.
  unfold entry_line. intros H. apply andb_true_iff in H as [H _]. exact H.
Qed.

(** The lines of entries with their lines of dashes, and what may follow
    them, are lines of a text file. *)
Lemma entries_text_lines (entries : list (list string)) (tail : list string) :
  Forall (Forall (fun l => entry_line l = true)) entries ->
  Forall (fun l => entry_line l = true) tail ->
  Forall (fun l => text_line l = true)
    (List.concat (map (fun e => e ++ [dashes]) entries) ++ tail).
Proof.
  intros He Ht. apply Forall_app. split.
  - apply Forall_concat, Forall_map.
    eapply Forall_impl; [|exact He].
    intros e H. apply Forall_app. split.
    + eapply Forall_impl; [|exact H]. exact entry_line_text_line.
    + constructor; [reflexivity|constructor].
  - eapply Forall_impl; [|exact Ht]. exact entry_line_text_line.
Qed.

Lemma read_chunks_entry (e rest chunk : list string) (chunks : list (list string)) :
  Forall (fun l => entry_line l = true) e ->
  read_chunks (map line_text (e ++ rest)) chunk chunks
  = read_chunks (map line_text rest) (chunk ++ entry_lines e) chunks.
Proof.
  intros He. revert chunk.
  induction He as [|l e Hl _ IH]; intros chunk.
  - cbn [entry_lines filter]. rewrite app_nil_r. reflexivity.
  - apply entry_line_inv in Hl as (H1 & H2).
    cbn [app map read_chunks entry_lines filter].
    change (line_text l) with (l ++ nl)%string.
    rewrite (remove_newline_line _ H1). unfold nonblank at 1.
    destruct (Nat.eqb (String.length l) 0); cbn [negb].
    + apply IH.
    + rewrite H2, IH, <- app_assoc. reflexivity.
Qed.

Lemma read_chunks_dashes (rest chunk : list string) (chunks : list (list string)) :
  read_chunks (line_text dashes :: rest) chunk chunks
  = read_chunks rest [] (chunks ++ [chunk]).
Proof.
  cbn [read_chunks]. change (line_text dashes) with (dashes ++ nl)%string.
  rewrite remove_newline_line by reflexivity.
  rewrite String.eqb_refl. reflexivity.
Qed.



(** ** Slices with a negative bound *)



(** ** One chunk: the reader against the record of the specification *)

Section Records.

Variable table : ascii -> option string.





End Records.

(** ** The revision order *)

Section RevisionOrder.

Variable table : ascii -> option string.

Lemma chunk_head_raise (chunk : list string) (e : exn) :
  chunk_head chunk = Raise e -> e <> AssertionError.
Proof.
  unfold chunk_head.
  destruct (nth_error chunk 0) as [line|]; cbn [of_option bind].
  - destruct (Py.split " | " line) as [|a [|b [|c [|d [|? ?]]]]];
      try (intros H; injection H as <-; discriminate).
    unfold Py.int.
    match goal with |- context [of_option ValueError ?o] => destruct o end;
      cbn [of_option bind]; [discriminate|].
    intros H; injection H as <-; discriminate.
  - intros H; injection H as <-; discriminate.
Qed.

Lemma int_raise (s : string) (e : exn) : Py.int s = Raise e -> e = ValueError.
Proof.
  unfold Py.int.
  match goal with |- context [of_option ValueError ?o] => destruct o end;
    cbn [of_option]; [discriminate|].
  intros H; injection H as <-; reflexivity.
Qed.

Lemma strptime_raise (s : string) (e : exn) :
  Datetime.strptime s = Raise e -> e = ValueError.
Proof.
  unfold Datetime.strptime.
  match goal with |- context [of_option ValueError ?o] => destruct o end;
    cbn [of_option]; [discriminate|].
  intros H; injection H as <-; reflexivity.
Qed.

Lemma read_changed_files_raise (n : Z) (lines : list string) (acc fs : list SVN_file)
    (e : exn) :
  read_changed_files table n lines acc = (fs, Raise e) -> e <> AssertionError.
Proof.
  revert acc. induction lines as [|l lines IH]; intros acc; cbn [read_changed_files].
  - discriminate.
  - unfold Py.str_at. destruct (String.get 3 l) as [c|]; cbn [of_option].
    + destruct (table c).
      * apply IH.
      * intros H; injection H as _ <-; discriminate.
    + intros H; injection H as _ <-; discriminate.
Qed.

(** What one pass of the loop body can do: it raises [AssertionError] only
    on a head line whose revision number is not the successor of the
    previous one, and it returns that successor when it returns. *)
Lemma read_chunk_cases (previous : Z) (chunk : list string) :
  match read_chunk table previous chunk with
  | (_, Raise AssertionError) =>
      exists n author r_date len,
        chunk_head chunk = Return (n, author, r_date, len) /\ n <> previous + 1
  | (_, Raise _) => True
  | (_, Return n) => n = previous + 1
  end.
Proof.
  unfold read_chunk.
  destruct (chunk_head chunk) as [[[[n author] r_date] len]|e] eqn:Hh.
  - destruct (Z.eqb_spec n (previous + 1)) as [->|Hne]; cbn [negb].
    + destruct (Py.int (hd "" (Py.split " " len))) as [m|e] eqn:Hi.
      * destruct (Py.split " " r_date) as [|d [|t [|x1 [|x2 [|x3 [|x4 [|x5 [|? ?]]]]]]]];
          try exact I.
        destruct (Datetime.strptime (d ++ " " ++ t)) as [dt|e] eqn:Hd.
        -- destruct (read_changed_files table (previous + 1)
                       (Py.slice chunk (Some 2) (Some (- m))) []) as [fs [u|e]] eqn:Hf.
           ++ reflexivity.
           ++ pose proof (read_changed_files_raise _ _ _ _ _ Hf) as Hne.
              destruct e; try exact I. contradiction.
        -- rewrite (strptime_raise _ _ Hd). exact I.
      * rewrite (int_raise _ _ Hi). exact I.
    + exists n, author, r_date, len. split; [reflexivity|assumption].
  - pose proof (chunk_head_raise _ _ Hh) as Hne.
    destruct e; try exact I. contradiction.
Qed.

Lemma read_chunk_assertion (previous : Z) (chunk : list string)
    (n : Z) (author r_date len : string) :
  chunk_head chunk = Return (n, author, r_date, len) ->
  n <> previous + 1 ->
  read_chunk table previous chunk = (None, Raise AssertionError).
Proof.
  intros Hh Hne. unfold read_chunk. rewrite Hh.
  destruct (Z.eqb_spec n (previous + 1)); [contradiction|reflexivity].
Qed.

Lemma read_entries_no_assertion (chunks : list (list string)) :
  forall (previous : Z) (acc : list SVN_log),
    (forall i chunk n author r_date len,
        nth_error chunks i = Some chunk ->
        chunk_head chunk = Return (n, author, r_date, len) ->
        n = previous + Z.of_nat i + 1) ->
    snd (read_entries table previous chunks acc) <> Raise AssertionError.
Proof.
  induction chunks as [|chunk chunks IH]; intros previous acc H; cbn [read_entries].
  - discriminate.
  - pose proof (read_chunk_cases previous chunk) as Hc.
    destruct (read_chunk table previous chunk) as [added [n|e]].
    + subst n. apply IH. intros i c n a d l Hi Hh.
      rewrite (H (S i) c n a d l Hi Hh). lia.
    + destruct e; try (cbn [snd]; discriminate).
      destruct Hc as (n & a & d & l & Hh & Hne).
      exfalso. apply Hne. rewrite (H 0%nat chunk n a d l eq_refl Hh). lia.
Qed.

(** Chunks that are read without error move the loop on by their number. *)
Lemma read_entries_app (good more : list (list string)) :
  forall (previous : Z) (acc : list SVN_log),
    snd (read_entries table previous good acc) = Return tt ->
    read_entries table previous (good ++ more) acc
    = read_entries table (previous + Z.of_nat (List.length good)) more
        (fst (read_entries table previous good acc)).
Proof.
  induction good as [|chunk good IH]; intros previous acc H.
  - cbn. rewrite Z.add_0_r. reflexivity.
  - cbn [read_entries app] in *.
    pose proof (read_chunk_cases previous chunk) as Hc.
    destruct (read_chunk table previous chunk) as [added [n|e]].
    + subst n. rewrite (IH _ _ H). f_equal. cbn [List.length]. lia.
    + discriminate.
Qed.

Lemma read_entries_first_violation (good rest : list (list string)) (bad : list string)
    (n : Z) (author r_date len : string) :
  snd (read_entries table 0 good []) = Return tt ->
  chunk_head bad = Return (n, author, r_date, len) ->
  n <> Z.of_nat (List.length good) + 1 ->
  read_entries table 0 (good ++ bad :: rest) []
  = (fst (read_entries table 0 good []), Raise AssertionError).
Proof.
  intros Hgood Hh Hne.
  rewrite (read_entries_app _ _ _ _ Hgood). cbn [read_entries].
  rewrite (read_chunk_assertion _ _ _ _ _ _ Hh) by (rewrite Z.add_0_l; exact Hne).
  rewrite app_nil_r. reflexivity.
Qed.

Lemma read_svn_log_file_chunks (svn : SVN_scene_properties) (text : string)
    (chunks : list (list string)) :
  file_chunks text = Return chunks ->
  read_svn_log_file table svn (Some text)
  = (set_log svn (fst (read_entries table 0 chunks [])),
     snd (read_entries table 0 chunks [])).
Proof.
  intros H. unfold read_svn_log_file. rewrite H. cbn [log set_log].
  destruct (read_entries table 0 chunks []) as [entries r]. reflexivity.
Qed.

End RevisionOrder.


(** ** An entry whose message has no empty line *)





(** ** [read_svn_log_file]: the claims *)




(** C8, as amended.  [read_svn_log_file] asserts that the revision numbers
    are consecutive from 1.  When the chunks of the file satisfy this
    order, no [AssertionError] is raised.  When the chunks before some
    chunk are read without error and the first line of that chunk gives a
    revision number that is not its position, the function raises
    [AssertionError], and the log holds the entries read before. *)
Theorem read_svn_log_file_revision_order
    (table : ascii -> option string) (svn : SVN_scene_properties)
    (text : string) (chunks : list (list string)) :
  file_chunks text = Return chunks ->
  (revisions_consecutive chunks ->
   snd (read_svn_log_file table svn (Some text)) <> Raise AssertionError)
  /\ (forall good bad rest n author r_date len,
        chunks = good ++ bad :: rest ->
        snd (read_entries table 0 good []) = Return tt ->
        chunk_head bad = Return (n, author, r_date, len) ->
        n <> Z.of_nat (List.length good) + 1 ->
        read_svn_log_file table svn (Some text)
        = (set_log svn (fst (read_entries table 0 good [])), Raise AssertionError)).
Proof.
  intros Hc. rewrite (read_svn_log_file_chunks table svn text chunks Hc). split.
  - intros Hord. cbn [snd]. apply read_entries_no_assertion.
    intros i chunk n a d l Hi Hh. rewrite (Hord i chunk n a d l Hi Hh). lia.
  - intros good bad rest n a d l -> Hgood Hh Hne.
    rewrite (read_entries_first_violation table good rest bad n a d l Hgood Hh Hne).
    reflexivity.
Qed.

Lemma read_svn_log_file_revision_order_witness :
  snd (read_svn_log_file sample_status_char svn0
         (Some (log_text dashes [entry_r1; entry_r2]))) <> Raise AssertionError
  /\ read_svn_log_file sample_status_char svn0
       (Some (log_text dashes [entry_r1; entry_r3]))
     = (set_log svn0 [record_r1], Raise AssertionError).
Proof.
  split.
  - apply (proj1 (read_svn_log_file_revision_order sample_status_char svn0
             (log_text dashes [entry_r1; entry_r2]) [entry_r1; entry_r2] eq_refl)).
    intros [|[|[|i]]] chunk n a d l Hi Hh; cbn in Hi; try discriminate;
      injection Hi as <-; vm_compute in Hh; injection Hh as <- _ _ _; reflexivity.
  - apply (proj2 (read_svn_log_file_revision_order sample_status_char svn0
             (log_text dashes [entry_r1; entry_r3]) [entry_r1; entry_r3] eq_refl)
             [entry_r1] entry_r3 [] 3 "alice"
             "2022-02-15 09:00:01 +0100 (Tue, 15 Feb 2022)" "1 line");
      [reflexivity | reflexivity | reflexivity | discriminate].
Defined.

(** C8 as it is worded fails on a file whose first entry has a date the
    reader does not accept and whose second entry is numbered 3: the
    revision numbers are not consecutive, and the function fails with
    [ValueError] on the first entry, not with [AssertionError]. *)
Lemma read_svn_log_file_order_claim_fails :
  file_chunks (log_text dashes [entry_r1_bad_date; entry_r3])
  = Return [entry_r1_bad_date; entry_r3]
  /\ ~ revisions_consecutive [entry_r1_bad_date; entry_r3]
  /\ read_svn_log_file sample_status_char svn0
       (Some (log_text dashes [entry_r1_bad_date; entry_r3]))
     = (svn0, Raise ValueError).
Proof.
  split; [reflexivity|]. split; [|reflexivity].
  intros H.
  specialize (H 1%nat entry_r3 3 "alice"
                "2022-02-15 09:00:01 +0100 (Tue, 15 Feb 2022)" "1 line"
                eq_refl eq_refl).
  discriminate H.
Qed.

(** C10.  [read_svn_log_file] clears the log before it reads: what the log
    holds after a call, and how the call ends, is the same whatever the log
    held before, and the two flags are left alone.  When the file does not
    exist the call returns normally and the log is empty. *)
Theorem read_svn_log_file_clears
    (table : ascii -> option string) (svn1 svn2 : SVN_scene_properties)
    (file : option string) :
  log (fst (read_svn_log_file table svn1 file))
  = log (fst (read_svn_log_file table svn2 file))
  /\ snd (read_svn_log_file table svn1 file) = snd (read_svn_log_file table svn2 file)
  /\ log_update_in_progress (fst (read_svn_log_file table svn1 file))
     = log_update_in_progress svn1
  /\ log_update_cancel_flag (fst (read_svn_log_file table svn1 file))
     = log_update_cancel_flag svn1
  /\ read_svn_log_file table svn1 None = (set_log svn1 [], Return tt).
Proof.
  unfold read_svn_log_file.
  destruct file as [text|]; [|repeat split].
  destruct (file_chunks text) as [chunks|e]; [|repeat split].
  cbn [log set_log].
  destruct (read_entries table 0 chunks []) as [entries r].
  repeat split.
Qed.

(** ** [SVN_fetch_log]: one modal step *)

Section ModalStep.

Variable table : ascii -> option string.
Variable spawn : string -> Popen.

Lemma read_svn_log_file_flags (s : SVN_scene_properties) (file : option string) :
  log_update_in_progress (fst (read_svn_log_file table s file)) = log_update_in_progress s
  /\ log_update_cancel_flag (fst (read_svn_log_file table s file)) = log_update_cancel_flag s.
Proof.
  unfold read_svn_log_file.
  destruct file as [text|]; [|split; reflexivity].
  destruct (file_chunks text) as [chunks|e]; [|split; reflexivity].
  cbn [log set_log]. destruct (read_entries table 0 chunks []). split; reflexivity.
Qed.

(** The part of a step after [communicate()]: it leaves [popen] alone, adds
    only reports, reads of the log file and one append; it ends the update
    or appends and reads and asks for another step, or it raises. *)
Lemma modal_finished_spec (w w' : world) (current latest : Z) (out : string)
    (tr tr' : list event) (r : result op_return) :
  modal_finished table w current latest out tr = (w', tr', r) ->
  popen w' = popen w
  /\ exists extra,
      tr' = tr ++ extra
      /\ forallb after_communicate extra = true
      /\ match r with
         | Return FINISHED =>
             log_update_in_progress (svn w') = false
             /\ svn_log_file w' = svn_log_file w
         | Return RUNNING_MODAL =>
             (exists text, In (AppendLogFile text) extra) /\ In ReadLogFile extra
         | Return _ => False
         | Raise _ => True
         end.
Proof.
  unfold modal_finished.
  destruct (svn_log_file w) as [text|] eqn:Hfile.
  - destruct (read_svn_log_file table (svn w) (Some text)) as [s1 [u|e]].
    + destruct (latest >=? current).
      * intros H; injection H as <- <- <-. split; [reflexivity|].
        eexists. split; [rewrite <- app_assoc; reflexivity|].
        split; [reflexivity|]. split; [reflexivity|exact Hfile].
      * cbn [svn with_svn with_file svn_log_file].
        destruct (read_svn_log_file table s1 _) as [s2 [u'|e]].
        -- cbn [svn with_svn log]. destruct (log s2) as [|e0 l0].
           ++ intros H; injection H as <- <- <-. split; [reflexivity|].
              eexists. split; [rewrite <- !app_assoc; reflexivity|].
              split; [reflexivity|exact I].
           ++ intros H; injection H as <- <- <-. split; [reflexivity|].
              eexists. split; [rewrite <- !app_assoc; reflexivity|].
              split; [reflexivity|]. split.
              ** eexists. right. left. reflexivity.
              ** right. right. left. reflexivity.
        -- intros H; injection H as <- <- <-. split; [reflexivity|].
           eexists. split; [rewrite <- !app_assoc; reflexivity|].
           split; [reflexivity|exact I].
    + intros H; injection H as <- <- <-. split; [reflexivity|].
      eexists. split; [reflexivity|]. split; [reflexivity|exact I].
  - destruct (latest >=? current).
    + intros H; injection H as <- <- <-. split; [reflexivity|].
      eexists. split; [reflexivity|].
      split; [reflexivity|]. split; [reflexivity|exact Hfile].
    + cbn [svn with_svn with_file svn_log_file].
      destruct (read_svn_log_file table (svn w) _) as [s2 [u'|e]].
      * cbn [svn with_svn log]. destruct (log s2) as [|e0 l0].
        -- intros H; injection H as <- <- <-. split; [reflexivity|].
           eexists. split; [rewrite <- !app_assoc; reflexivity|].
           split; [reflexivity|exact I].
        -- intros H; injection H as <- <- <-. split; [reflexivity|].
           eexists. split; [rewrite <- !app_assoc; reflexivity|].
           split; [reflexivity|]. split.
           ++ eexists. left. reflexivity.
           ++ right. left. reflexivity.
      * intros H; injection H as <- <- <-. split; [reflexivity|].
        eexists. split; [rewrite <- !app_assoc; reflexivity|].
        split; [reflexivity|exact I].
Qed.

Lemma after_communicate_in (extra : list event) (e : event) :
  forallb after_communicate extra = true -> In e extra -> after_communicate e = true.
Proof.
  intros H Hin. rewrite forallb_forall in H. apply H, Hin.
Qed.

End ModalStep.

Section ModalClaims.

Variable table : ascii -> option string.
Variable spawn : string -> Popen.

(** The shape of a step: cancelled, or a process [p] (found, or started by
    the events [pre]) is polled, and either still runs or is finished and
    handled. *)
Lemma modal_cases (w : world) :
  (log_update_cancel_flag (svn w) = true
   /\ modal table spawn w
      = (with_svn w (mk_svn (log (svn w)) false false),
         [Report "INFO" "Log update cancelled."], Return FINISHED))
  \/ (log_update_cancel_flag (svn w) = false
      /\ exists (p : Popen) (pre : list event) (w1 : world),
          ((popen w = Some p /\ pre = [] /\ w1 = w)
           \/ (popen w = None
               /\ let latest := latest_log_rev (log (svn w)) in
                  let goal := latest + Z.min (prefs_revision_number w - latest)
                                         MAX_REVS_TO_DOWNLOAD in
                  p = spawn (svn_log_command (latest + 1) goal)
                  /\ pre = [Spawn (svn_log_command (latest + 1) goal)]
                  /\ w1 = with_popen w (Some p)))
          /\ ((returncode p = None
               /\ modal table spawn w = (w1, pre ++ [Poll p None], Return PASS_THROUGH))
              \/ (exists code,
                    returncode p = Some code
                    /\ modal table spawn w
                       = modal_finished table (with_popen w1 None)
                           (prefs_revision_number w) (latest_log_rev (log (svn w)))
                           (stdout_data p)
                           ((pre ++ [Poll p (Some code)]) ++ [Communicate p])))).
Proof.
  unfold modal.
  destruct (log_update_cancel_flag (svn w)) eqn:Hc.
  - left. split; [reflexivity|]. reflexivity.
  - right. split; [reflexivity|].
    destruct (popen w) as [p|] eqn:Hp.
    + exists p, [], w. split; [left; auto|].
      destruct (returncode p) as [code|] eqn:Hr.
      * right. exists code. split; reflexivity.
      * left. split; reflexivity.
    + set (latest := latest_log_rev (log (svn w))).
      set (goal := latest + Z.min (prefs_revision_number w - latest) MAX_REVS_TO_DOWNLOAD).
      assert (Hgoal : latest + (if prefs_revision_number w - latest >? MAX_REVS_TO_DOWNLOAD
                                then MAX_REVS_TO_DOWNLOAD
                                else prefs_revision_number w - latest) = goal).
      { unfold goal. f_equal.
        destruct (Z.gtb_spec (prefs_revision_number w - latest) MAX_REVS_TO_DOWNLOAD); lia. }
      rewrite Hgoal.
      exists (spawn (svn_log_command (latest + 1) goal)),
        [Spawn (svn_log_command (latest + 1) goal)],
        (with_popen w (Some (spawn (svn_log_command (latest + 1) goal)))).
      split; [right; repeat split; reflexivity|].
      destruct (returncode (spawn (svn_log_command (latest + 1) goal))) as [code|] eqn:Hr.
      * right. exists code. split; reflexivity.
      * left. split; reflexivity.
Qed.

End ModalClaims.

(** The reader looks at the two flags only to keep them. *)
Lemma read_svn_log_file_from (table : ascii -> option string)
    (s1 s2 : SVN_scene_properties) (file : option string) :
  log_update_in_progress s1 = log_update_in_progress s2 ->
  log_update_cancel_flag s1 = log_update_cancel_flag s2 ->
  read_svn_log_file table s1 file = read_svn_log_file table s2 file.
Proof.
  intros H1 H2. unfold read_svn_log_file, set_log. rewrite H1, H2.
  destruct file as [text|]; [|reflexivity].
  destruct (file_chunks text) as [chunks|e]; [|reflexivity].
  cbn [log]. destruct (read_entries table 0 chunks []). reflexivity.
Qed.

(** The part of a step after [communicate()], case by case. *)
Lemma modal_finished_exact
    (table : ascii -> option string) (w w' : world) (current latest : Z)
    (out : string) (tr tr' : list event) (r : result op_return) :
  modal_finished table w current latest out tr = (w', tr', r) ->
  let old := svn_log_file w in
  let new_log := match old with Some _ => Py.str_from 73 out | None => out end in
  let appended := (match old with Some t => t | None => EmptyString end ++ new_log)%string in
  exists extra,
    tr' = tr ++ extra
    /\ (old <> None -> In ReadLogFile extra)
    /\ match snd (read_svn_log_file table (svn w) old) with
       | Raise e =>
           r = Raise e /\ svn_log_file w' = old
           /\ forall text, ~ In (AppendLogFile text) extra
       | Return _ =>
           if latest >=? current then
             r = Return FINISHED
             /\ log_update_in_progress (svn w') = false
             /\ svn_log_file w' = old
             /\ forall text, ~ In (AppendLogFile text) extra
           else
             svn_log_file w' = Some appended
             /\ In (AppendLogFile new_log) extra /\ In ReadLogFile extra
             /\ svn w' = fst (read_svn_log_file table (svn w) (Some appended))
             /\ match snd (read_svn_log_file table (svn w) (Some appended)) with
                | Raise e => r = Raise e
                | Return _ =>
                    match log (svn w') with
                    | [] => r = Raise IndexError
                    | _ :: _ => r = Return RUNNING_MODAL
                    end
                end
       end.
Proof.
  unfold modal_finished. cbv zeta.
  set (cut := Py.str_from 73 out).
  destruct (svn_log_file w) as [text|] eqn:Hfile.
  - pose proof (read_svn_log_file_flags table (svn w) (Some text)) as [Hp1 Hc1].
    destruct (read_svn_log_file table (svn w) (Some text)) as [s1 [u|e]];
      cbn [fst snd] in *.
    + destruct (latest >=? current).
      * intros H; injection H as <- <- <-.
        exists [ReadLogFile; Report "INFO" "Finished updating the SVN log!"].
        split; [rewrite <- app_assoc; reflexivity|].
        split; [intros _; left; reflexivity|].
        cbn [svn with_svn set_in_progress log_update_in_progress svn_log_file].
        repeat split; try assumption.
        intros t [H|[H|[]]]; discriminate H.
      * cbn [svn with_svn with_file svn_log_file].
        rewrite Hfile, (read_svn_log_file_from table s1 (svn w) _ Hp1 Hc1).
        destruct (read_svn_log_file table (svn w) (Some (text ++ cut)%string))
          as [s2 [u'|e]]; cbn [fst snd svn with_svn log].
        -- destruct (log s2) as [|e0 l0] eqn:Hlog; intros H; injection H as <- <- <-;
             eexists; (split; [rewrite <- !app_assoc; reflexivity|]);
             (split; [intros _; left; reflexivity|]);
             cbn [svn with_svn with_file svn_log_file]; rewrite ?Hlog;
             repeat split; cbn; auto.
        -- intros H; injection H as <- <- <-.
           eexists. split; [rewrite <- !app_assoc; reflexivity|].
           split; [intros _; left; reflexivity|].
           cbn [svn with_svn with_file svn_log_file].
           repeat split; cbn; auto.
    + intros H; injection H as <- <- <-.
      exists [ReadLogFile]. split; [reflexivity|].
      split; [intros _; left; reflexivity|].
      cbn [svn with_svn svn_log_file]. repeat split; try assumption.
      intros t [H|[]]; discriminate H.
  - change (snd (read_svn_log_file table (svn w) None)) with (@Return unit tt).
    cbn [append].
    destruct (latest >=? current).
    + intros H; injection H as <- <- <-.
      exists [Report "INFO" "Finished updating the SVN log!"].
      split; [reflexivity|]. split; [intros H; contradiction H; reflexivity|].
      cbn [svn with_svn set_in_progress log_update_in_progress svn_log_file].
      repeat split; try assumption.
      intros t [H|[]]; discriminate H.
    + cbn [svn with_svn with_file svn_log_file]. rewrite ?Hfile. cbn [append].
      destruct (read_svn_log_file table (svn w) (Some out))
        as [s2 [u'|e]]; cbn [fst snd svn with_svn log].
      * destruct (log s2) as [|e0 l0] eqn:Hlog; intros H; injection H as <- <- <-;
          eexists; (split; [rewrite <- !app_assoc; reflexivity|]);
          (split; [intros H; contradiction H; reflexivity|]);
          cbn [svn with_svn with_file svn_log_file]; rewrite ?Hlog;
          repeat split; cbn; auto.
      * intros H; injection H as <- <- <-.
        eexists. split; [rewrite <- !app_assoc; reflexivity|].
        split; [intros H; contradiction H; reflexivity|].
        cbn [svn with_svn with_file svn_log_file].
        repeat split; cbn; auto.
Qed.

(** A step that finds neither a cancel request nor a process begins by
    starting a process. *)
Lemma modal_spawns_first
    (table : ascii -> option string) (spawn : string -> Popen) (w : world) :
  log_update_cancel_flag (svn w) = false ->
  popen w = None ->
  exists command w2 tr2 r2,
    modal table spawn w = (w2, Spawn command :: tr2, r2).
Proof.
  intros Hc Hp.
  destruct (modal_cases table spawn w) as [[Hc' _]|(_ & p & pre & w1 & Hpre & Hstep)];
    [congruence|].
  destruct Hpre as [(Hp' & _)|(_ & _ & -> & _)]; [congruence|].
  destruct Hstep as [(_ & ->)|(code & _ & Hs)].
  - do 4 eexists. reflexivity.
  - destruct (modal_finished table _ _ _ _ _) as [[w2 tr2] r2] eqn:Hf in Hs.
    apply modal_finished_spec in Hf as (_ & extra & -> & _).
    rewrite Hs. do 4 eexists. reflexivity.
Qed.

(** C3.  In every modal step in which a subprocess exists and its [poll()]
    returns [None], the operator returns [{'PASS_THROUGH'}] and the world is
    as it was.  A step reads the output of the subprocess, appends to the
    log file or reads the log file only if [poll()] gave a return code in
    it.  Such a step takes the output and forgets the subprocess; it reads
    the log file it finds; then, when the log it began with had reached the
    current revision, it ends the update without appending; when the log was
    behind, it appends the output (without its first 73 characters when the
    file existed), reads the file again into the log, and returns
    [{'RUNNING_MODAL'}], so that the step after it begins by starting the
    next subprocess.  An exception of the reader, or an empty log after the
    second reading, ends the step with that exception. *)
Theorem modal_poll
    (table : ascii -> option string) (spawn : string -> Popen)
    (w w' : world) (tr : list event) (r : result op_return) :
  modal table spawn w = (w', tr, r) ->
  (forall p, popen w = Some p -> In (Poll p None) tr ->
             r = Return PASS_THROUGH /\ w' = w)
  /\ (In ReadLogFile tr \/ (exists text, In (AppendLogFile text) tr)
      \/ (exists p, In (Communicate p) tr) ->
      exists p code, In (Poll p (Some code)) tr)
  /\ (forall p code, In (Poll p (Some code)) tr ->
        let latest := latest_log_rev (log (svn w)) in
        let current := prefs_revision_number w in
        let old := svn_log_file w in
        let new_log :=
          match old with Some _ => Py.str_from 73 (stdout_data p) | None => stdout_data p end in
        let appended :=
          (match old with Some t => t | None => EmptyString end ++ new_log)%string in
        In (Communicate p) tr /\ popen w' = None
        /\ (old <> None -> In ReadLogFile tr)
        /\ match snd (read_svn_log_file table (svn w) old) with
           | Raise e =>
               r = Raise e /\ svn_log_file w' = old
               /\ forall text, ~ In (AppendLogFile text) tr
           | Return _ =>
               if latest >=? current then
                 r = Return FINISHED
                 /\ log_update_in_progress (svn w') = false
                 /\ svn_log_file w' = old
                 /\ forall text, ~ In (AppendLogFile text) tr
               else
                 svn_log_file w' = Some appended
                 /\ In (AppendLogFile new_log) tr /\ In ReadLogFile tr
                 /\ svn w' = fst (read_svn_log_file table (svn w) (Some appended))
                 /\ match snd (read_svn_log_file table (svn w) (Some appended)) with
                    | Raise e => r = Raise e
                    | Return _ =>
                        match log (svn w') with
                        | [] => r = Raise IndexError
                        | _ :: _ =>
                            r = Return RUNNING_MODAL
                            /\ exists command w2 tr2 r2,
                                 modal table spawn w' = (w2, Spawn command :: tr2, r2)
                        end
                    end
           end).
Proof.
  intros Hm.
  destruct (modal_cases table spawn w) as [[_ Hc]|(Hflag & p & pre & w1 & Hpre & Hstep)].
  - (* cancelled *)
    rewrite Hm in Hc. injection Hc as -> -> ->.
    split; [|split].
    + intros q _ [H|[]]; discriminate H.
    + intros [[H|[]]|[(t & [H|[]])|(q & [H|[]])]]; discriminate H.
    + intros q code [H|[]]; discriminate H.
  - assert (Hnoev : forall e, In e pre -> exists c, e = Spawn c).
    { destruct Hpre as [(_ & -> & _)|(_ & _ & -> & _)]; intros e [].
      - eexists; eauto.
      - contradiction. }
    assert (Hw1 : svn w1 = svn w /\ prefs_revision_number w1 = prefs_revision_number w
                  /\ svn_log_file w1 = svn_log_file w).
    { destruct Hpre as [(_ & _ & ->)|(_ & _ & _ & ->)]; repeat split. }
    destruct Hw1 as (Hs1 & Hp1 & Hf1).
    destruct Hstep as [(Hr & Hs)|(code & Hr & Hs)].
    + (* the process still runs *)
      rewrite Hm in Hs. injection Hs as -> -> ->.
      split; [|split].
      * intros q Hq _. split; [reflexivity|].
        destruct Hpre as [(_ & _ & ->)|(Hnone & _)]; [reflexivity|congruence].
      * intros H. exfalso.
        assert (Hin : forall e, In e (pre ++ [Poll p None]) ->
                                (exists c, e = Spawn c) \/ e = Poll p None).
        { intros e He. apply in_app_or in He as [He|[<-|[]]]; auto. }
        destruct H as [H|[(t & H)|(q & H)]];
          apply Hin in H as [(c & H)|H]; discriminate H.
      * intros q code Hin. exfalso.
        apply in_app_or in Hin as [Hin|[Hin|[]]].
        -- apply Hnoev in Hin as (c & Hin). discriminate Hin.
        -- injection Hin as _ Hn. discriminate Hn.
    + (* the process is finished *)
      rewrite Hm in Hs. symmetry in Hs.
      set (head := (pre ++ [Poll p (Some code)]) ++ [Communicate p]) in *.
      pose proof (modal_finished_spec _ _ _ _ _ _ _ _ _ Hs)
        as (Hpop & extra0 & Htr0 & Hextra & _).
      apply modal_finished_exact in Hs as (extra & Htr & Hread & Hres).
      assert (extra0 = extra) by (apply (app_inv_head head); congruence).
      subst extra0 tr. clear Htr0.
      cbv zeta in Hres.
      cbn [popen with_popen svn svn_log_file prefs_revision_number] in Hpop, Hread, Hres.
      rewrite ?Hs1, ?Hf1 in *.
      assert (Hhead : forall e, In e head ->
                (exists c, e = Spawn c) \/ e = Poll p (Some code) \/ e = Communicate p).
      { intros e He. apply in_app_or in He as [He|[<-|[]]]; [|auto].
        apply in_app_or in He as [He|[<-|[]]]; auto. }
      split; [|split].
      * intros q Hq Hin. exfalso.
        apply in_app_or in Hin as [Hin|Hin].
        -- apply Hhead in Hin as [(c & H)|[H|H]]; discriminate H.
        -- apply (after_communicate_in _ _ Hextra) in Hin. discriminate Hin.
      * intros _. exists p, code.
        apply in_or_app. left. apply in_or_app. left.
        apply in_or_app. right. left. reflexivity.
      * intros q code' Hin. cbv zeta.
        assert (Hq : q = p).
        { apply in_app_or in Hin as [Hin|Hin].
          - apply Hhead in Hin as [(c & H)|[H|H]]; try discriminate H.
            injection H as -> _. reflexivity.
          - apply (after_communicate_in _ _ Hextra) in Hin. discriminate Hin. }
        subst q.
        split; [apply in_or_app; left; apply in_or_app; right; left; reflexivity|].
        split; [exact Hpop|].
        split; [intros Ho; apply in_or_app; right; exact (Hread Ho)|].
        assert (Hnoapp : (forall text, ~ In (AppendLogFile text) extra) ->
                         forall text, ~ In (AppendLogFile text) (head ++ extra)).
        { intros Hno text Hin'. apply in_app_or in Hin' as [Hin'|Hin'].
          - apply Hhead in Hin' as [(c & H)|[H|H]]; discriminate H.
          - exact (Hno text Hin'). }
        destruct (snd (read_svn_log_file table (svn w) (svn_log_file w))) as [u|e].
        -- destruct (latest_log_rev (log (svn w)) >=? prefs_revision_number w).
           ++ destruct Hres as (Hr1 & Hip & Hfile & Hno). repeat split; auto.
           ++ destruct Hres as (Hfile & Happ & Hrd & Hsvn & Hlast).
              split; [exact Hfile|]. split; [apply in_or_app; right; exact Happ|].
              split; [apply in_or_app; right; exact Hrd|]. split; [exact Hsvn|].
              destruct (snd (read_svn_log_file table (svn w) (Some _))) as [u'|e];
                [|exact Hlast].
              destruct (log (svn w')) as [|e0 l0]; [exact Hlast|].
              split; [exact Hlast|].
              apply modal_spawns_first; [|exact Hpop].
              rewrite Hsvn, (proj2 (read_svn_log_file_flags table (svn w) _)).
              exact Hflag.
        -- destruct Hres as (Hr1 & Hfile & Hno). repeat split; auto.
Qed.

(** Evaluates the closed term that decides the outcome stated in [H]. *)
Ltac decide_outcome H :=
  lazymatch type of H with
  | match ?s with Return _ => _ | Raise _ => _ end =>
      let v := eval vm_compute in s in
      replace s with v in H by (vm_compute; reflexivity)
  | if ?b then _ else _ =>
      let v := eval vm_compute in b in
      replace b with v in H by (vm_compute; reflexivity)
  | match ?l with [] => _ | _ :: _ => _ end =>
      let v := eval vm_compute in l in
      replace l with v in H by (vm_compute; reflexivity)
  end.

Lemma modal_poll_witness :
  modal sample_status_char running_process world_polling
  = (world_polling,
     [Poll (running_process (svn_log_command 1 10)) None],
     Return PASS_THROUGH)
  /\ (let step := modal sample_status_char running_process world_finished_behind in
      snd step = Return RUNNING_MODAL
      /\ svn_log_file (fst (fst step))
         = Some (log_text dashes [svn_entry_r1; svn_entry_r2])
      /\ log (svn (fst (fst step))) = [record_r1; record_r2])
  /\ (let step := modal sample_status_char running_process world_finished_done in
      snd step = Return FINISHED
      /\ log_update_in_progress (svn (fst (fst step))) = false
      /\ svn_log_file (fst (fst step)) = svn_log_file world_finished_done).
Proof.
  split; [|split].
  - destruct (modal sample_status_char running_process world_polling)
      as [[w' tr] r] eqn:Hm.
    pose proof (modal_poll sample_status_char running_process world_polling w' tr r Hm)
      as (H & _).
    assert (Htr : tr = [Poll (running_process (svn_log_command 1 10)) None]).
    { vm_compute in Hm. injection Hm as _ <- _. reflexivity. }
    destruct (H (running_process (svn_log_command 1 10)) eq_refl) as [-> ->].
    + rewrite Htr. left. reflexivity.
    + rewrite Htr. reflexivity.
  - cbv zeta.
    destruct (modal sample_status_char running_process world_finished_behind)
      as [[w' tr] r] eqn:Hm.
    pose proof (modal_poll sample_status_char running_process world_finished_behind
                  w' tr r Hm) as (_ & _ & H).
    assert (Htr : In (Poll (mk_Popen "svn log" (Some 0) (log_text dashes [svn_entry_r2]))
                        (Some 0)) tr).
    { vm_compute in Hm. injection Hm as _ <- _. left. reflexivity. }
    specialize (H _ _ Htr). cbv zeta in H.
    destruct H as (_ & _ & _ & H).
    decide_outcome H. decide_outcome H.
    destruct H as (Hfile & _ & _ & Hsvn & Hlast).
    decide_outcome Hlast. rewrite Hsvn in Hlast. decide_outcome Hlast.
    destruct Hlast as [Hr _].
    cbn [fst snd]. rewrite Hfile, Hsvn.
    split; [exact Hr|]. split; vm_compute; reflexivity.
  - cbv zeta.
    destruct (modal sample_status_char running_process world_finished_done)
      as [[w' tr] r] eqn:Hm.
    pose proof (modal_poll sample_status_char running_process world_finished_done
                  w' tr r Hm) as (_ & _ & H).
    assert (Htr : In (Poll (mk_Popen "svn log" (Some 1) "") (Some 1)) tr).
    { vm_compute in Hm. injection Hm as _ <- _. left. reflexivity. }
    specialize (H _ _ Htr). cbv zeta in H.
    destruct H as (_ & _ & _ & H).
    decide_outcome H. decide_outcome H.
    destruct H as (Hr & Hip & Hfile & _).
    cbn [fst snd]. rewrite Hfile. split; [exact Hr|]. split; [exact Hip|reflexivity].
Defined.

(** C4.  Invoking [SVN_fetch_log] while [log_update_in_progress] is true,
    or while the latest log revision is at least the current revision,
    reports a message and returns [{'CANCELLED'}], and the world is as it
    was; otherwise the invoke sets [log_update_in_progress] to true and
    [log_update_cancel_flag] to false, leaves the log alone, adds the
    operator as a modal handler and returns [{'RUNNING_MODAL'}]. *)
Theorem invoke_guards (w : world) :
  (log_update_in_progress (svn w) = true
   \/ latest_log_rev (log (svn w)) >= prefs_revision_number w ->
   exists level message,
     invoke w = (w, [Report level message], Return CANCELLED))
  /\ (log_update_in_progress (svn w) = false ->
      latest_log_rev (log (svn w)) < prefs_revision_number w ->
      exists tr,
        invoke w
        = (mk_world (mk_svn (log (svn w)) true false) (prefs_revision_number w)
             None (svn_log_file w),
           tr, Return RUNNING_MODAL)
        /\ In ModalHandlerAdd tr).
Proof.
  unfold invoke. split.
  - intros H. destruct (log_update_in_progress (svn w)).
    + eauto.
    + destruct H as [H|H]; [discriminate|].
      destruct (Z.geb_spec (latest_log_rev (log (svn w))) (prefs_revision_number w));
        [eauto|lia].
  - intros -> H.
    destruct (Z.geb_spec (latest_log_rev (log (svn w))) (prefs_revision_number w));
      [lia|].
    eexists. split; [reflexivity|]. right. left. reflexivity.
Qed.

Lemma invoke_guards_witness :
  (exists level message,
      invoke world_started = (world_started, [Report level message], Return CANCELLED))
  /\ (exists tr,
        invoke world_idle = (world_started, tr, Return RUNNING_MODAL)
        /\ In ModalHandlerAdd tr).
Proof.
  split.
  - apply (proj1 (invoke_guards world_started)). left. reflexivity.
  - apply (proj2 (invoke_guards world_idle)); reflexivity.
Defined.

(** C5.  Executing [SVN_fetch_log_cancel] sets [log_update_cancel_flag] and
    returns [{'FINISHED'}], and nothing else changes.  A modal step of
    [SVN_fetch_log] that finds the flag set clears both
    [log_update_cancel_flag] and [log_update_in_progress] and returns
    [{'FINISHED'}]; it only reports: the subprocess is neither polled nor
    read, the log and the log file stay as they are.  So does the modal step
    that follows the cancel operator. *)
Theorem cancel_then_modal
    (table : ascii -> option string) (spawn : string -> Popen) (w : world) :
  cancel_execute w
  = (mk_world (mk_svn (log (svn w)) (log_update_in_progress (svn w)) true)
       (prefs_revision_number w) (popen w) (svn_log_file w),
     [], Return FINISHED)
  /\ (log_update_cancel_flag (svn w) = true ->
      exists message,
        modal table spawn w
        = (mk_world (mk_svn (log (svn w)) false false)
             (prefs_revision_number w) (popen w) (svn_log_file w),
           [Report "INFO" message], Return FINISHED))
  /\ (exists message,
        modal table spawn (fst (fst (cancel_execute w)))
        = (mk_world (mk_svn (log (svn w)) false false)
             (prefs_revision_number w) (popen w) (svn_log_file w),
           [Report "INFO" message], Return FINISHED)).
Proof.
  split; [reflexivity|]. split.
  - intros H. unfold modal. rewrite H. eexists. reflexivity.
  - eexists. reflexivity.
Qed.

Lemma cancel_then_modal_witness :
  exists message,
    modal sample_status_char finished_process
      (mk_world (mk_svn [record_r1] true true) 25
         (Some (finished_process "svn log")) (Some (log_text dashes [entry_r1])))
    = (mk_world (mk_svn [record_r1] false false) 25
         (Some (finished_process "svn log")) (Some (log_text dashes [entry_r1])),
       [Report "INFO" message], Return FINISHED).
Proof.
  apply (proj1 (proj2 (cancel_then_modal sample_status_char finished_process
           (mk_world (mk_svn [record_r1] true true) 25
              (Some (finished_process "svn log"))
              (Some (log_text dashes [entry_r1])))))).
  reflexivity.
Defined.

(** C9.  Every subprocess a modal step starts is asked for
    [svn log --verbose -r first:goal], where [first] is the latest log
    revision plus one and [goal] the latest plus the smaller of
    [current_rev - latest] and [MAX_REVS_TO_DOWNLOAD = 10]: the goal never
    exceeds the current revision and never exceeds the latest revision by
    more than 10.  While the log is behind the current revision the range
    is ascending and holds from 1 to 10 revisions.  The difference is
    clamped from above only: when the log has reached the current revision
    or is ahead of it, the range runs backwards from the latest revision
    plus one down to the current one, and it holds more than 10 revisions
    as soon as the log is ahead by 9. *)
Theorem modal_spawn_range
    (table : ascii -> option string) (spawn : string -> Popen)
    (w w' : world) (tr : list event) (r : result op_return) (command : string) :
  modal table spawn w = (w', tr, r) ->
  In (Spawn command) tr ->
  let latest := latest_log_rev (log (svn w)) in
  let current := prefs_revision_number w in
  exists goal,
    command = ("svn log --verbose -r " ++ Py.str_of_int (latest + 1) ++ ":"
               ++ Py.str_of_int goal)%string
    /\ goal = latest + Z.min (current - latest) 10
    /\ goal <= current
    /\ goal <= latest + 10
    /\ (latest < current ->
        latest + 1 <= goal
        /\ 1 <= revisions_requested (latest + 1) goal <= MAX_REVS_TO_DOWNLOAD)
    /\ (current <= latest ->
        goal = current
        /\ revisions_requested (latest + 1) goal = latest - current + 2)
    /\ (current + 9 <= latest ->
        MAX_REVS_TO_DOWNLOAD < revisions_requested (latest + 1) goal).
Proof.
  intros Hm Hin latest current.
  assert (Hgoal : forall goal, goal = latest + Z.min (current - latest) 10 ->
            goal <= current /\ goal <= latest + 10
            /\ (latest < current ->
                latest + 1 <= goal
                /\ 1 <= revisions_requested (latest + 1) goal <= MAX_REVS_TO_DOWNLOAD)
            /\ (current <= latest ->
                goal = current
                /\ revisions_requested (latest + 1) goal = latest - current + 2)
            /\ (current + 9 <= latest ->
                MAX_REVS_TO_DOWNLOAD < revisions_requested (latest + 1) goal)).
  { unfold MAX_REVS_TO_DOWNLOAD, revisions_requested. intros goal ->. lia. }
  destruct (modal_cases table spawn w) as [[_ Hc]|(_ & p & pre & w1 & Hpre & Hstep)].
  - rewrite Hm in Hc. injection Hc as _ Htr _. subst tr.
    destruct Hin as [H|[]]. discriminate H.
  - assert (Hpre' : In (Spawn command) pre).
    { destruct Hstep as [(_ & Hs)|(code & _ & Hs)]; rewrite Hm in Hs.
      - injection Hs as _ Htr _. subst tr.
        apply in_app_or in Hin as [Hin|[Hin|[]]]; [exact Hin|discriminate Hin].
      - symmetry in Hs.
        apply modal_finished_spec in Hs as (_ & extra & -> & Hextra & _).
        apply in_app_or in Hin as [Hin|Hin].
        + apply in_app_or in Hin as [Hin|[Hin|[]]]; [|discriminate Hin].
          apply in_app_or in Hin as [Hin|[Hin|[]]]; [exact Hin|discriminate Hin].
        + apply (after_communicate_in _ _ Hextra) in Hin. discriminate Hin. }
    destruct Hpre as [(_ & -> & _)|(_ & _ & -> & _)].
    + contradiction.
    + destruct Hpre' as [H|[]]. injection H as <-.
      eexists. split; [reflexivity|]. split; [reflexivity|].
      apply Hgoal. reflexivity.
Qed.

(** The step on [world_ahead], where the log ends at revision 50 and the
    current revision is 3, starts [svn log --verbose -r 51:3], a request
    for 49 revisions; the step on [world_caught_up], where both are at
    revision 2, starts a request for the revisions 3 and 2. *)
Lemma modal_spawn_range_witness :
  In (Spawn "svn log --verbose -r 51:3")
    (snd (fst (modal sample_status_char running_process world_ahead)))
  /\ revisions_requested 51 3 = 49
  /\ MAX_REVS_TO_DOWNLOAD < revisions_requested 51 3
  /\ In (Spawn "svn log --verbose -r 3:2")
       (snd (fst (modal sample_status_char running_process world_caught_up))).
Proof.
  assert (Hin : In (Spawn "svn log --verbose -r 51:3")
                  (snd (fst (modal sample_status_char running_process world_ahead))))
    by (left; reflexivity).
  destruct (modal sample_status_char running_process world_ahead)
    as [[w' tr] r] eqn:Hm.
  cbn [fst snd] in Hin.
  destruct (modal_spawn_range sample_status_char running_process world_ahead
              w' tr r "svn log --verbose -r 51:3" Hm Hin)
    as (goal & _ & Hgoal & _ & _ & _ & Heq & Hmore).
  cbn [world_ahead svn log prefs_revision_number latest_log_rev last revision_number]
    in Hgoal, Heq, Hmore.
  assert (Hg : goal = 3) by (rewrite Hgoal; reflexivity).
  clear Hgoal. subst goal.
  split; [exact Hin|].
  split; [exact (proj2 (Heq ltac:(lia)))|].
  split; [apply Hmore; lia|].
  left. reflexivity.
Defined.

(** ** [CacheConfigFactory.load_config_from_file] *)

(** C6, as amended.  [load_config_from_file] raises its own [ValueError]
    if and only if the path does not exist.  When the path is a file whose
    text is JSON it returns a [CacheConfig] whose [json_obj] is the parsed
    content; when the text is not JSON the [JSONDecodeError] of the decoder
    (a [ValueError] too) comes out, and a directory gives
    [IsADirectoryError]. *)
Theorem load_config_from_file_cases (fs : disk) (path : string) :
  (load_config_from_file fs path = Raise ValueError <-> fs path = None)
  /\ (forall j, fs path = Some (File (Json j)) ->
                load_config_from_file fs path = Return (mk_CacheConfig path j))
  /\ (fs path = Some (File NotJson) ->
      load_config_from_file fs path = Raise JSONDecodeError)
  /\ (fs path = Some Directory ->
      load_config_from_file fs path = Raise IsADirectoryError).
Proof.
  unfold load_config_from_file, CacheConfig_init, read_json.
  repeat split.
  - destruct (fs path) as [[[j|]|]|]; cbn [bind]; intros H;
      try discriminate H; reflexivity.
  - intros ->. reflexivity.
  - intros j ->. reflexivity.
  - intros ->. reflexivity.
  - intros ->. reflexivity.
Qed.

Lemma load_config_from_file_cases_witness :
  load_config_from_file disk_json "/tmp/cacheconfig.json"
  = Return (mk_CacheConfig "/tmp/cacheconfig.json" (JDict []))
  /\ load_config_from_file disk_json "/tmp/other.json" = Raise ValueError.
Proof.
  split.
  - apply (proj1 (proj2 (load_config_from_file_cases disk_json "/tmp/cacheconfig.json"))).
    reflexivity.
  - apply (proj1 (load_config_from_file_cases disk_json "/tmp/other.json")).
    reflexivity.
Defined.

(** C6 as it is worded fails on a file that exists and whose text is not
    JSON: the path exists, no [CacheConfig] is returned, and what is raised
    is a [ValueError]. *)
Lemma load_config_from_file_claim_fails :
  disk_not_json "/tmp/cacheconfig.json" <> None
  /\ load_config_from_file disk_not_json "/tmp/cacheconfig.json" = Raise JSONDecodeError
  /\ is_ValueError JSONDecodeError = true.
Proof.
  repeat split. discriminate.
Qed.

(** ** Registration *)

Lemma for_each_fields (f : string -> host -> result host) :
  (forall c h h', f c h = Return h' ->
     Sequence_attrs h' = Sequence_attrs h /\ Scene_attrs h' = Scene_attrs h
     /\ load_post h' = load_post h /\ cache_variables h' = cache_variables h) ->
  forall l h h', for_each f l h = Return h' ->
     Sequence_attrs h' = Sequence_attrs h /\ Scene_attrs h' = Scene_attrs h
     /\ load_post h' = load_post h /\ cache_variables h' = cache_variables h.
Proof.
  intros Hf. induction l as [|c l IH]; intros h h' H; cbn [for_each] in H.
  - injection H as <-. repeat split.
  - destruct (f c h) as [h1|e] eqn:E; cbn [bind] in H; [|discriminate].
    destruct (Hf _ _ _ E) as (<- & <- & <- & <-). exact (IH _ _ H).
Qed.

Lemma register_class_fields (c : string) (h h' : host) :
  register_class c h = Return h' ->
  Sequence_attrs h' = Sequence_attrs h /\ Scene_attrs h' = Scene_attrs h
  /\ load_post h' = load_post h /\ cache_variables h' = cache_variables h.
Proof.
  unfold register_class. destruct (mem c (registered_classes h)); [discriminate|].
  intros H; injection H as <-. repeat split.
Qed.

Lemma register_class_classes (c : string) (h h' : host) :
  register_class c h = Return h' ->
  registered_classes h' = registered_classes h ++ [c].
Proof.
  unfold register_class. destruct (mem c (registered_classes h)); [discriminate|].
  intros H; injection H as <-. reflexivity.
Qed.

Lemma unregister_class_fields (c : string) (h h' : host) :
  unregister_class c h = Return h' ->
  Sequence_attrs h' = Sequence_attrs h /\ Scene_attrs h' = Scene_attrs h
  /\ load_post h' = load_post h /\ cache_variables h' = cache_variables h.
Proof.
  unfold unregister_class. destruct (mem c (registered_classes h)); [|discriminate].
  intros H; injection H as <-. repeat split.
Qed.

Lemma dict_get_set_same (V : Type) (k : string) (v : V) (d : list (string * V)) :
  dict_get k (dict_set k v d) = Some v.
Proof.
  induction d as [|[k' v'] d IH]; cbn [dict_set dict_get].
  - rewrite String.eqb_refl. reflexivity.
  - destruct (String.eqb k k') eqn:E; cbn [dict_get].
    + rewrite String.eqb_refl. reflexivity.
    + rewrite E. exact IH.
Qed.

Lemma dict_del_set (V : Type) (k : string) (v : V) (d : list (string * V)) :
  dict_get k d = None -> dict_del k (dict_set k v d) = d.
Proof.
  induction d as [|[k' v'] d IH]; cbn [dict_get dict_set dict_del].
  - rewrite String.eqb_refl. reflexivity.
  - destruct (String.eqb k k') eqn:E; [discriminate|].
    intros H. cbn [dict_del]. rewrite E, (IH H). reflexivity.
Qed.

(** C7: what [register] installs and what [unregister] leaves behind.  In
    every host in which it succeeds, the [register] of blezou registers both
    property-group classes, sets the attribute [blezou] on [Sequence] and on
    [Scene] and appends [load_post_handler] to [load_post]; the [unregister]
    that follows unregisters classes and clears the cache variables only:
    [load_post_handler] is still in [load_post] and both [blezou]
    attributes are still set.  The [register] of the SVN module sets the
    attribute [svn] on [Scene], of type [SVN_scene_properties], and its
    [unregister] deletes it again. *)
Theorem blezou_unregister_leaves (h h1 h2 : host) :
  Blezou.register h = Return h1 ->
  Blezou.unregister h1 = Return h2 ->
  (mem "BZ_PopertyGroup_SEQ_Shot" (registered_classes h1) = true
   /\ mem "BZ_PopertyGroup_BlezouData" (registered_classes h1) = true
   /\ dict_get "blezou" (Sequence_attrs h1)
      = Some (mk_PointerProperty "Blezou" "BZ_PopertyGroup_SEQ_Shot"
                "Metadata that is required for blezou")
   /\ dict_get "blezou" (Scene_attrs h1)
      = Some (mk_PointerProperty "Blezou" "BZ_PopertyGroup_BlezouData"
                "Metadata that is required for blezou")
   /\ load_post h1 = load_post h ++ [Blezou.load_post_handler])
  /\ (In Blezou.load_post_handler (load_post h2)
      /\ dict_mem "blezou" (Sequence_attrs h2) = true
      /\ dict_mem "blezou" (Scene_attrs h2) = true)
  /\ (forall h', Svn.register h = Return h' ->
        dict_get "svn" (Scene_attrs h')
        = Some (mk_PointerProperty "" "SVN_scene_properties" "")
        /\ (dict_get "svn" (Scene_attrs h) = None -> Svn.unregister h' = Return h)).
Proof.
  intros Hreg Hunreg.
  unfold Blezou.register in Hreg.
  destruct (for_each register_class Blezou.classes h) as [h0|e] eqn:Hcls;
    cbn [bind] in Hreg; [|discriminate].
  injection Hreg as <-.
  destruct (for_each_fields register_class register_class_fields _ _ _ Hcls)
    as (Hseq & Hscn & Hlp & Hcv).
  unfold Blezou.unregister in Hunreg.
  match type of Hunreg with
  | bind (for_each _ _ ?x) _ = _ => destruct (for_each unregister_class (rev Blezou.classes) x) as [h3|e] eqn:Hun
  end; cbn [bind] in Hunreg; [|discriminate].
  injection Hunreg as <-.
  destruct (for_each_fields unregister_class unregister_class_fields _ _ _ Hun)
    as (Hseq' & Hscn' & Hlp' & Hcv').
  cbn [Sequence_attrs Scene_attrs load_post cache_variables registered_classes
         clear_cache_variables] in *.
  split; [|split].
  - (* register *)
    assert (Hmem : mem "BZ_PopertyGroup_SEQ_Shot" (registered_classes h0) = true
                   /\ mem "BZ_PopertyGroup_BlezouData" (registered_classes h0) = true).
    { clear - Hcls. unfold Blezou.classes in Hcls. cbn [for_each] in Hcls.
      destruct (register_class "BZ_PopertyGroup_SEQ_Shot" h) as [ha|e] eqn:Ea;
        cbn [bind] in Hcls; [|discriminate].
      destruct (register_class "BZ_PopertyGroup_BlezouData" ha) as [hb|e] eqn:Eb;
        cbn [bind] in Hcls; [|discriminate].
      injection Hcls as <-.
      rewrite (register_class_classes _ _ _ Eb), (register_class_classes _ _ _ Ea).
      unfold mem. rewrite !existsb_app. cbn [existsb].
      rewrite !String.eqb_refl. cbn [orb]. rewrite !orb_true_r. split; reflexivity. }
    destruct Hmem as [Hm1 Hm2].
    repeat split; try assumption.
    + apply dict_get_set_same.
    + apply dict_get_set_same.
    + rewrite Hlp. reflexivity.
  - (* unregister *)
    rewrite Hlp', Hseq', Hscn'. repeat split.
    + apply in_or_app. right. left. reflexivity.
    + unfold dict_mem. rewrite dict_get_set_same. reflexivity.
    + unfold dict_mem. rewrite dict_get_set_same. reflexivity.
  - intros h' H. unfold Svn.register in H. injection H as <-.
    cbn [Scene_attrs]. split; [apply dict_get_set_same|].
    intros Hnone. unfold Svn.unregister, dict_mem. cbn [Scene_attrs].
    rewrite dict_get_set_same, (dict_del_set _ _ _ _ Hnone).
    destruct h; reflexivity.
Qed.

Lemma blezou_unregister_leaves_witness :
  exists h1 h2,
    Blezou.register fresh_host = Return h1
    /\ Blezou.unregister h1 = Return h2
    /\ registered_classes h2 = []
    /\ In Blezou.load_post_handler (load_post h2)
    /\ dict_mem "blezou" (Sequence_attrs h2) = true
    /\ dict_mem "blezou" (Scene_attrs h2) = true.
Proof.
  destruct (Blezou.register fresh_host) as [h1|e] eqn:H1; [|discriminate H1].
  destruct (Blezou.unregister h1) as [h2|e] eqn:H2.
  - exists h1, h2.
    destruct (blezou_unregister_leaves fresh_host h1 h2 H1 H2) as (_ & (Ha & Hb & Hc) & _).
    repeat split; try assumption.
    vm_compute in H1. injection H1 as <-. vm_compute in H2. injection H2 as <-.
    reflexivity.
  - vm_compute in H1. injection H1 as <-. vm_compute in H2. discriminate H2.
Defined.

(** ** Dicts *)


Lemma dict_set_set (V : Type) (k : string) (v v' : V) (d : list (string * V)) :
  dict_set k v (dict_set k v' d) = dict_set k v d.
Proof.
  induction d as [|[k0 v0] d IH]; cbn [dict_set].
  - rewrite String.eqb_refl. reflexivity.
  - destruct (String.eqb_spec k k0) as [->|Hk]; cbn [dict_set].
    + rewrite String.eqb_refl. reflexivity.
    + destruct (String.eqb_spec k k0); [contradiction|]. rewrite IH. reflexivity.
Qed.




Lemma dict_get_libs_json (f : string) (m : list (string * list (string * json))) :
  dict_get f (libs_json m) = option_map lib_json (dict_get f m).
Proof.
  induction m as [|[k c] m IH]; cbn [libs_json map dict_get fst snd option_map].
  - reflexivity.
  - destruct (String.eqb f k); [reflexivity|exact IH].
Qed.

Lemma dict_set_libs_json (f : string) (c : list (string * json))
    (m : list (string * list (string * json))) :
  dict_set f (lib_json c) (libs_json m) = libs_json (dict_set f c m).
Proof.
  induction m as [|[k c0] m IH]; cbn [libs_json map dict_set fst snd].
  - reflexivity.
  - destruct (String.eqb f k); cbn [map fst snd]; [reflexivity|].
    fold (libs_json m). rewrite IH. reflexivity.
Qed.

(** ** [CacheConfigFactory.gen_config_from_scene] *)


Lemma gen_cachepath_collection_cachefile (context : bpy_context) (coll : ID) :
  exists p,
    gen_cachepath_collection context coll = Return p
    /\ Path.as_posix p = cachefile context (id_name coll).
Proof.
  eexists. split; reflexivity.
Qed.

(** One pass of the inner loop, on a configuration of the expected shape. *)
Lemma gen_config_item_step (context : bpy_context) (libfile : string) (item : ID)
    (meta : json) (m : list (string * list (string * json))) :
  name_missing context item = false ->
  gen_config_item context libfile item (config_json meta m)
  = Return (config_json meta (add_item context m (libfile, item))).
Proof.
  intros Hmiss. unfold gen_config_item, add_item, cached_by_name. cbn [fst snd].
  unfold name_missing in Hmiss. unfold collections_getitem.
  destruct (String.eqb_spec (bl_rna_identifier item) "Collection") as [Hc|Hc];
    cbn [negb andb] in *; [|reflexivity].
  destruct (find (fun c => String.eqb (id_name c) (id_name item))
              (data_collections context)) as [c|]; [|discriminate Hmiss].
  cbn [of_option bind].
  destruct (ID_in c (cache_collections context)); cbn [negb]; [|reflexivity].
  destruct (gen_cachepath_collection_cachefile context item) as (p & -> & Hp).
  set (v := col_dict context (id_name item)).
  assert (Hv : JDict [("cachefile", JStr (Path.as_posix p))] = v)
    by (rewrite Hp; reflexivity).
  set (n := id_name item) in *.
  unfold config_json at 1.
  change (getitem (JDict [("meta", meta); ("libs", JDict (libs_json m))]) "libs")
    with (Return (JDict (libs_json m))).
  cbn [bind contains]. unfold dict_mem at 1. rewrite dict_get_libs_json.
  unfold add_coll.
  destruct (dict_get libfile m) as [colls|] eqn:Hget; cbn [option_map negb bind].
  - cbn [getitem]. rewrite dict_get_libs_json, Hget.
    cbn [option_map of_option bind].
    change (getitem (lib_json colls) "data_from")
      with (Return (JDict [("collections", JDict colls)])).
    cbn [bind].
    change (getitem (JDict [("collections", JDict colls)]) "collections")
      with (Return (JDict colls)).
    cbn [bind contains].
    assert (Hset : forall x : json -> result json, bind (if negb (dict_mem n colls)
                                   then setitem (JDict colls) n (JDict [])
                                   else Return (JDict colls)) x
                             = x (JDict (if dict_mem n colls then colls
                                         else dict_set n (JDict []) colls))).
    { intros x. destruct (dict_mem n colls); reflexivity. }
    rewrite Hset. cbn [bind setitem]. rewrite Hv.
    replace (dict_set n v (if dict_mem n colls then colls
                           else dict_set n (JDict []) colls))
      with (dict_set n v colls)
      by (destruct (dict_mem n colls); [reflexivity|symmetry; apply dict_set_set]).
    change (dict_set "collections" (JDict (dict_set n v colls))
              [("collections", JDict colls)])
      with [("collections", JDict (dict_set n v colls))].
    unfold lib_json at 1. cbn [setitem bind].
    change (dict_set "data_from" (JDict [("collections", JDict (dict_set n v colls))])
              [("data_from", JDict [("collections", JDict colls)])])
      with [("data_from", JDict [("collections", JDict (dict_set n v colls))])].
    fold (lib_json (dict_set n v colls)).
    rewrite dict_set_libs_json. reflexivity.
  - cbn [setitem bind getitem].
    change _LIBDICT_TEMPL with (lib_json []).
    rewrite dict_set_libs_json, dict_get_libs_json, dict_get_set_same.
    cbn [option_map of_option bind].
    change (getitem (lib_json []) "data_from")
      with (Return (JDict [("collections", JDict [])])).
    cbn [bind].
    change (getitem (JDict [("collections", JDict [])]) "collections")
      with (Return (JDict [])).
    cbn [bind contains dict_mem dict_get negb setitem dict_set].
    rewrite Hv, !String.eqb_refl.
    unfold lib_json at 1. cbn [setitem bind].
    change (dict_set "data_from" (JDict [("collections", JDict [(n, v)])])
              [("data_from", JDict [("collections", JDict [])])])
      with [("data_from", JDict [("collections", JDict [(n, v)])])].
    fold (lib_json [(n, v)]).
    rewrite dict_set_libs_json, dict_set_set. reflexivity.
Qed.

Section ConfigLoops.

Variable abspath_posix : string -> string.
Variable context : bpy_context.








End ConfigLoops.

(** Saving to a path that can be opened, and loading it again. *)
Lemma save_then_init (fs : disk) (data : json) (path : string) :
  open_w fs path = Return tt ->
  save_as_json fs data path = (disk_write fs path (Json data), Return tt)
  /\ CacheConfig_init (disk_write fs path (Json data)) path
     = Return (mk_CacheConfig path data).
Proof.
  intros H. unfold save_as_json, CacheConfig_init, read_json, disk_write.
  rewrite H, String.eqb_refl. split; reflexivity.
Qed.

(** ** The text of a cache path *)


(** A text without the separator is the only piece of its split. *)
Lemma split_no_separator (c : ascii) (s : string) :
  has_char c s = false -> Py.split (String c "") s = [s].
Proof.
  unfold Py.split. induction s as [|a s IH]; intros H; [reflexivity|].
  cbn [has_char] in H. apply orb_false_iff in H as [Hc Hs].
  cbn [Py.split_go String.prefix].
  destruct (ascii_dec c a) as [->|_].
  - rewrite Ascii.eqb_refl in Hc. discriminate Hc.
  - rewrite (IH Hs). reflexivity.
Qed.

Lemma path_of_plain_name (s : string) :
  has_char "/" s = false ->
  String.eqb s "" = false -> String.eqb s "." = false ->
  Path.of_string s = Path.mk "" [s].
Proof.
  intros Hs He Hd. unfold Path.of_string, Py.path_parts.
  rewrite (split_no_separator "/" s Hs). cbn [filter]. rewrite He, Hd. cbn [orb negb].
  destruct s as [|a s]; [discriminate He|].
  cbn [has_char] in Hs. apply orb_false_iff in Hs as [Ha _].
  cbn [String.prefix].
  destruct (ascii_dec "/" a) as [<-|_]; [discriminate Ha|]. reflexivity.
Qed.

Lemma abc_name_plain (n : string) :
  String.eqb (n ++ ".abc") "" = false /\ String.eqb (n ++ ".abc") "." = false.
Proof.
  destruct n as [|a [|b n]]; cbn [append]; split; try reflexivity.
  - cbn [String.eqb]. destruct (Ascii.eqb a "."); reflexivity.
  - cbn [String.eqb]. destruct (Ascii.eqb a "."); reflexivity.
Qed.










(** * Further properties of the code *)

(** ** [read_svn_log_file]: what every call leaves in the log *)

Section ReaderInvariants.

Variable table : ascii -> option string.

Lemma read_changed_files_revision (n : Z) (lines : list string) :
  forall (acc fs : list SVN_file) (r : result unit),
    read_changed_files table n lines acc = (fs, r) ->
    Forall (fun f => revision f = n) acc ->
    Forall (fun f => revision f = n) fs.
Proof.
  induction lines as [|l lines IH]; intros acc fs r H Hacc; cbn [read_changed_files] in H.
  - injection H as <- _. exact Hacc.
  - destruct (Py.str_at 3 l) as [c|e].
    + destruct (table c) as [st|].
      * apply (IH _ _ _ H). apply Forall_app. split; [exact Hacc|].
        constructor; [reflexivity|constructor].
      * injection H as <- _. apply Forall_app. split; [exact Hacc|].
        constructor; [reflexivity|constructor].
    + injection H as <- _. exact Hacc.
Qed.

(** The entry one pass of the loop adds carries the successor of the
    previous revision number, and so do its changed files; a pass that
    returns has added an entry. *)
Lemma read_chunk_added (previous : Z) (chunk : list string) :
  match read_chunk table previous chunk with
  | (Some e, _) =>
      revision_number e = previous + 1
      /\ Forall (fun f => revision f = previous + 1) (changed_files e)
  | (None, Return _) => False
  | (None, Raise _) => True
  end.
Proof.
  unfold read_chunk.
  destruct (chunk_head chunk) as [[[[n author] r_date] len]|e]; [|exact I].
  destruct (Z.eqb_spec n (previous + 1)) as [->|Hne]; cbn [negb]; [|exact I].
  destruct (Py.int (hd "" (Py.split " " len))) as [m|e]; [|exact I].
  destruct (Py.split " " r_date) as [|d [|t [|x1 [|x2 [|x3 [|x4 [|x5 [|? ?]]]]]]]];
    try exact I.
  destruct (Datetime.strptime (d ++ " " ++ t)) as [dt|e].
  - destruct (read_changed_files table (previous + 1)
                (Py.slice chunk (Some 2) (Some (- m))) []) as [fs [u|e]] eqn:Hf;
      (split; [reflexivity|]);
      exact (read_changed_files_revision _ _ _ _ _ Hf (Forall_nil _)).
  - split; [reflexivity|constructor].
Qed.

Lemma read_entries_added (chunks : list (list string)) :
  forall (previous : Z) (acc : list SVN_log),
  exists added,
    fst (read_entries table previous chunks acc) = acc ++ added
    /\ forall i e, nth_error added i = Some e ->
         revision_number e = previous + Z.of_nat i + 1
         /\ Forall (fun f => revision f = revision_number e) (changed_files e).
Proof.
  induction chunks as [|chunk chunks IH]; intros previous acc; cbn [read_entries].
  - exists []. split; [rewrite app_nil_r; reflexivity|].
    intros [|i] e H; discriminate H.
  - pose proof (read_chunk_added previous chunk) as Ha.
    pose proof (read_chunk_cases table previous chunk) as Hc.
    destruct (read_chunk table previous chunk) as [[e0|] [n|ex]].
    + subst n. destruct Ha as [Hrev Hfiles].
      destruct (IH (previous + 1) (acc ++ [e0])) as (added & Hfst & Hadded).
      exists (e0 :: added). split.
      * rewrite Hfst, <- app_assoc. reflexivity.
      * intros [|i] e H; cbn [nth_error] in H.
        -- injection H as <-. rewrite Hrev. split; [lia|exact Hfiles].
        -- destruct (Hadded i e H) as [H1 H2]. split; [lia|exact H2].
    + destruct Ha as [Hrev Hfiles]. exists [e0]. split; [reflexivity|].
      intros [|[|i]] e H; cbn [nth_error] in H; try discriminate H.
      injection H as <-. rewrite Hrev. split; [lia|exact Hfiles].
    + contradiction.
    + exists []. split; [reflexivity|]. intros [|i] e H; discriminate H.
Qed.

Lemma latest_log_rev_nth (l : list SVN_log) :
  (forall i e, nth_error l i = Some e -> revision_number e = Z.of_nat i + 1) ->
  latest_log_rev l = Z.of_nat (List.length l).
Proof.
  intros H. destruct l as [|e l]; [reflexivity|].
  unfold latest_log_rev.
  assert (Hdef : forall (l : list SVN_log) a d d', last (a :: l) d = last (a :: l) d').
  { clear. induction l as [|x l IH]; intros a d d'; [reflexivity|].
    change (last (x :: l) d = last (x :: l) d'). apply IH. }
  assert (Hlast : nth_error (e :: l) (List.length l) = Some (last l e)).
  { clear H. revert e. induction l as [|x l IH]; intros e; [reflexivity|].
    cbn [List.length nth_error]. rewrite (IH x). f_equal.
    destruct l as [|y l]; [reflexivity|].
    change (last (y :: l) x = last (y :: l) e). apply Hdef. }
  rewrite (H _ _ Hlast). cbn [List.length]. lia.
Qed.

End ReaderInvariants.

(** X1.  Whatever the file holds and however the call ends, the log
    [read_svn_log_file] leaves has the revision numbers 1, 2, 3, ... in
    order; so the latest log revision is the number of entries. *)
Theorem read_svn_log_file_revisions
    (table : ascii -> option string) (svn : SVN_scene_properties)
    (file : option string) :
  let entries := log (fst (read_svn_log_file table svn file)) in
  (forall i e, nth_error entries i = Some e -> revision_number e = Z.of_nat i + 1)
  /\ latest_log_rev entries = Z.of_nat (List.length entries).
Proof.
  cbv zeta.
  assert (H : forall i e,
             nth_error (log (fst (read_svn_log_file table svn file))) i = Some e ->
             revision_number e = Z.of_nat i + 1).
  { unfold read_svn_log_file.
    destruct file as [text|]; [|intros [|i] e H; discriminate H].
    destruct (file_chunks text) as [chunks|ex]; [|intros [|i] e H; discriminate H].
    cbn [log set_log].
    destruct (read_entries_added table chunks 0 []) as (added & Hfst & Hadded).
    destruct (read_entries table 0 chunks []) as [entries r].
    cbn [fst log set_log] in *. subst entries.
    intros i e Hi. destruct (Hadded i e Hi) as [Hrev _]. lia. }
  split; [exact H|]. apply latest_log_rev_nth, H.
Qed.

(** X2.  Whatever the file holds and however the call ends, every changed
    file of every entry of the log carries the revision number of its
    entry. *)
Theorem read_svn_log_file_changed_files_revision
    (table : ascii -> option string) (svn : SVN_scene_properties)
    (file : option string) (e : SVN_log) (f : SVN_file) :
  In e (log (fst (read_svn_log_file table svn file))) ->
  In f (changed_files e) ->
  revision f = revision_number e.
Proof.
  unfold read_svn_log_file.
  destruct file as [text|]; [|intros []].
  destruct (file_chunks text) as [chunks|ex]; [|intros []].
  cbn [log set_log].
  destruct (read_entries_added table chunks 0 []) as (added & Hfst & Hadded).
  destruct (read_entries table 0 chunks []) as [entries r].
  cbn [fst log set_log] in *. subst entries.
  intros He Hf. apply In_nth_error in He as [i Hi].
  destruct (Hadded i e Hi) as [_ Hfiles].
  rewrite Forall_forall in Hfiles. exact (Hfiles f Hf).
Qed.

Lemma read_svn_log_file_changed_files_revision_witness :
  revision (mk_SVN_file "b.blend" "/trunk/lib/b.blend" "modified" 1)
  = revision_number record_r1.
Proof.
  apply (read_svn_log_file_changed_files_revision sample_status_char svn0
           (Some (log_text dashes [svn_entry_r1; svn_entry_r2]))).
  - vm_compute. left. reflexivity.
  - right. left. reflexivity.
Defined.

Lemma read_svn_log_file_revisions_witness :
  latest_log_rev
    (log (fst (read_svn_log_file sample_status_char svn0
                 (Some (log_text dashes [svn_entry_r1; svn_entry_r2])))))
  = 2.
Proof.
  rewrite (proj2 (read_svn_log_file_revisions sample_status_char svn0
                    (Some (log_text dashes [svn_entry_r1; svn_entry_r2])))).
  reflexivity.
Defined.

(** ** Lines after the last line of dashes *)


Lemma read_chunks_entries_then (entries : list (list string)) (rest : list string) :
  forall chunks,
    Forall (Forall (fun l => entry_line l = true)) entries ->
    read_chunks
      (map line_text (List.concat (map (fun e => e ++ [dashes]) entries) ++ rest))
      [] chunks
    = read_chunks (map line_text rest) [] (chunks ++ map entry_lines entries).
Proof.
  intros chunks H. revert chunks.
  induction H as [|e entries He _ IH]; intros chunks; cbn [map List.concat app].
  - rewrite app_nil_r. reflexivity.
  - rewrite <- !app_assoc, (read_chunks_entry _ _ _ _ He).
    cbn [app map]. rewrite read_chunks_dashes, IH, <- app_assoc. reflexivity.
Qed.

(** X3.  Lines that follow the last line of dashes never reach the log: a
    file that goes on after its last closed entry with lines that are not
    dashes has the chunks of its closed entries only.  In particular a file
    without any line of dashes after its first line has no chunk, and the
    log read from it is empty.  The lines are lines of a text file: none
    holds a newline or a carriage return. *)
Theorem file_chunks_ignores_open_entry
    (header : string) (entries : list (list string)) (tail : list string) :
  text_line header = true ->
  Forall (Forall (fun l => entry_line l = true)) entries ->
  Forall (fun l => entry_line l = true) tail ->
  file_chunks
    (lines_text (header :: List.concat (map (fun e => e ++ [dashes]) entries) ++ tail))
  = Return (map entry_lines entries).
Proof.
  intros Hh He Ht. unfold file_chunks.
  rewrite file_lines_text.
  - cbn [map]. rewrite (read_chunks_entries_then _ _ [] He).
    rewrite <- (app_nil_r tail), (read_chunks_entry _ _ _ _ Ht). reflexivity.
  - constructor; [assumption|]. apply entries_text_lines; assumption.
Qed.

Lemma file_chunks_ignores_open_entry_witness :
  file_chunks (lines_text (dashes :: List.concat (map (fun e => e ++ [dashes]) [svn_entry_r1])
                             ++ svn_entry_r2))
  = Return [entry_r1].
Proof.
  apply (file_chunks_ignores_open_entry dashes [svn_entry_r1] svn_entry_r2).
  - reflexivity.
  - repeat constructor.
  - repeat constructor.
Defined.


(** ** [SVN_fetch_log.modal]: what a step that handles a finished process does *)







(** What the part of a step after [communicate()] does to the flags, the
    file and the log, by its outcome. *)
Lemma modal_finished_effects
    (table : ascii -> option string) (w w' : world) (current latest : Z)
    (out : string) (tr tr' : list event) (r : result op_return) :
  modal_finished table w current latest out tr = (w', tr', r) ->
  let old := match svn_log_file w with Some t => t | None => EmptyString end in
  let new_log := match svn_log_file w with Some _ => Py.str_from 73 out | None => out end in
  log_update_cancel_flag (svn w') = log_update_cancel_flag (svn w)
  /\ prefs_revision_number w' = prefs_revision_number w
  /\ match r with
     | Return FINISHED =>
         latest >= current /\ log_update_in_progress (svn w') = false
         /\ svn_log_file w' = svn_log_file w
     | Return RUNNING_MODAL =>
         latest < current
         /\ log_update_in_progress (svn w') = log_update_in_progress (svn w)
         /\ log (svn w') <> []
         /\ svn_log_file w' = Some (old ++ new_log)%string
     | Return _ => False
     | Raise _ =>
         log_update_in_progress (svn w') = log_update_in_progress (svn w)
         /\ (svn_log_file w' = svn_log_file w
             \/ svn_log_file w' = Some (old ++ new_log)%string)
     end.
Proof.
  unfold modal_finished. cbv zeta.
  set (cut := Py.str_from 73 out).
  destruct (svn_log_file w) as [text|] eqn:Hfile.
  - pose proof (read_svn_log_file_flags table (svn w) (Some text)) as [Hp1 Hc1].
    destruct (read_svn_log_file table (svn w) (Some text)) as [s1 [u|e]];
      cbn [fst] in Hp1, Hc1.
    + destruct (Z.geb_spec latest current) as [Hge|Hlt].
      * intros H; injection H as <- <- <-.
        cbn [svn with_svn set_in_progress log_update_cancel_flag
               log_update_in_progress prefs_revision_number svn_log_file].
        repeat split; try assumption. lia.
      * cbn [svn with_svn with_file svn_log_file].
        match goal with
        | |- context [read_svn_log_file table s1 ?f] =>
            pose proof (read_svn_log_file_flags table s1 f) as [Hp2 Hc2];
            destruct (read_svn_log_file table s1 f) as [s2 [u'|e]]
        end; cbn [fst] in Hp2, Hc2; cbn [svn with_svn log].
        -- destruct (log s2) as [|e0 l0] eqn:Hlog; intros H; injection H as <- <- <-;
             cbn [svn with_svn with_file log_update_cancel_flag log_update_in_progress
                    prefs_revision_number svn_log_file];
             rewrite ?Hfile; repeat split; try congruence.
           right. reflexivity.
        -- intros H; injection H as <- <- <-.
           cbn [svn with_svn with_file log_update_cancel_flag log_update_in_progress
                  prefs_revision_number svn_log_file].
           rewrite ?Hfile. repeat split; try congruence. right. reflexivity.
    + intros H; injection H as <- <- <-.
      cbn [svn with_svn log_update_cancel_flag log_update_in_progress
             prefs_revision_number svn_log_file].
      repeat split; try congruence. left. exact Hfile.
  - destruct (Z.geb_spec latest current) as [Hge|Hlt].
    + intros H; injection H as <- <- <-.
      cbn [svn with_svn set_in_progress log_update_cancel_flag
             log_update_in_progress prefs_revision_number svn_log_file].
      repeat split; try assumption. lia.
    + cbn [svn with_svn with_file svn_log_file].
      match goal with
      | |- context [read_svn_log_file table (svn w) ?f] =>
          pose proof (read_svn_log_file_flags table (svn w) f) as [Hp2 Hc2];
          destruct (read_svn_log_file table (svn w) f) as [s2 [u'|e]]
      end; cbn [fst] in Hp2, Hc2; cbn [svn with_svn log].
      * destruct (log s2) as [|e0 l0] eqn:Hlog; intros H; injection H as <- <- <-;
          cbn [svn with_svn with_file log_update_cancel_flag log_update_in_progress
                 prefs_revision_number svn_log_file];
          rewrite ?Hfile; repeat split; try congruence.
        right. reflexivity.
      * intros H; injection H as <- <- <-.
        cbn [svn with_svn with_file log_update_cancel_flag log_update_in_progress
               prefs_revision_number svn_log_file].
        rewrite ?Hfile. repeat split; try congruence. right. reflexivity.
Qed.

(** A step by its outcome: what it leaves of the flags, the preference and
    the file. *)
Lemma modal_effects
    (table : ascii -> option string) (spawn : string -> Popen)
    (w w' : world) (tr : list event) (r : result op_return) :
  modal table spawn w = (w', tr, r) ->
  let latest := latest_log_rev (log (svn w)) in
  let current := prefs_revision_number w in
  prefs_revision_number w' = current
  /\ (svn_log_file w' = svn_log_file w
      \/ exists suffix,
           svn_log_file w'
           = Some (match svn_log_file w with Some t => t | None => EmptyString end
                   ++ suffix)%string)
  /\ match r with
     | Return FINISHED =>
         log_update_in_progress (svn w') = false
         /\ log_update_cancel_flag (svn w') = false
         /\ svn_log_file w' = svn_log_file w
         /\ (log_update_cancel_flag (svn w) = true \/ latest >= current)
     | Return RUNNING_MODAL =>
         log_update_cancel_flag (svn w) = false /\ latest < current
         /\ log (svn w') <> [] /\ popen w' = None
         /\ log_update_in_progress (svn w') = log_update_in_progress (svn w)
     | Return PASS_THROUGH =>
         log_update_cancel_flag (svn w) = false
         /\ svn w' = svn w /\ svn_log_file w' = svn_log_file w
     | Return CANCELLED => False
     | Raise _ =>
         log_update_cancel_flag (svn w) = false
         /\ log_update_in_progress (svn w') = log_update_in_progress (svn w)
     end.
Proof.
  intros Hm. cbv zeta.
  destruct (modal_cases table spawn w) as [[Hc Hs]|(Hc & p & pre & w1 & Hpre & Hstep)].
  - rewrite Hm in Hs. injection Hs as -> -> ->.
    cbn [prefs_revision_number with_svn svn svn_log_file log_update_in_progress
           log_update_cancel_flag].
    repeat split; auto.
  - assert (Hw1 : svn w1 = svn w /\ prefs_revision_number w1 = prefs_revision_number w
                  /\ svn_log_file w1 = svn_log_file w).
    { destruct Hpre as [(_ & _ & ->)|(_ & _ & _ & ->)]; repeat split. }
    destruct Hw1 as (Hs1 & Hp1 & Hf1).
    destruct Hstep as [(_ & Hs)|(code & _ & Hs)]; rewrite Hm in Hs.
    + injection Hs as -> -> ->. repeat split; auto.
    + symmetry in Hs.
      pose proof (modal_finished_spec _ _ _ _ _ _ _ _ _ Hs) as (Hpop & _).
      apply modal_finished_effects in Hs. cbv zeta in Hs.
      cbn [svn with_popen prefs_revision_number svn_log_file popen] in Hs, Hpop.
      rewrite Hs1, Hp1, Hf1 in Hs.
      destruct Hs as (Hcf & Hpr & Hout).
      split; [exact Hpr|].
      destruct r as [[| | |]|e].
      * contradiction.
      * destruct Hout as (Hlt & Hip & Hlog & Hfile).
        split; [right; eexists; exact Hfile|].
        repeat split; auto.
      * destruct Hout as (Hge & Hip & Hfile).
        split; [left; exact Hfile|].
        repeat split; auto. congruence.
      * contradiction.
      * destruct Hout as (Hip & [Hfile|Hfile]).
        -- split; [left; exact Hfile|]. split; assumption.
        -- split; [right; eexists; exact Hfile|]. split; assumption.
Qed.

(** X6.  A modal step only ever appends to the log file: after any step
    the file is as it was, or it holds the text it held before (nothing, if
    it did not exist) followed by more text. *)
Theorem modal_appends_only
    (table : ascii -> option string) (spawn : string -> Popen)
    (w w' : world) (tr : list event) (r : result op_return) :
  modal table spawn w = (w', tr, r) ->
  svn_log_file w' = svn_log_file w
  \/ exists suffix,
       svn_log_file w'
       = Some (match svn_log_file w with Some t => t | None => EmptyString end
               ++ suffix)%string.
Proof.
  intros Hm. exact (proj1 (proj2 (modal_effects table spawn w w' tr r Hm))).
Qed.

Lemma modal_appends_only_witness :
  Some (log_text dashes [entry_r1; entry_r2]) = None
  \/ exists suffix,
       Some (log_text dashes [entry_r1; entry_r2]) = Some (EmptyString ++ suffix)%string.
Proof.
  apply (modal_appends_only sample_status_char running_process
           (mk_world (mk_svn [] true false) 25 (Some (finished_process "svn log")) None)
           (mk_world (mk_svn [record_r1; record_r2] true false) 25 None
              (Some (log_text dashes [entry_r1; entry_r2])))
           [Poll (finished_process "svn log") (Some 0);
            Communicate (finished_process "svn log");
            AppendLogFile (log_text dashes [entry_r1; entry_r2]); ReadLogFile;
            Report "INFO" ("SVN Log now at r" ++ Py.str_of_int 2)]
           (Return RUNNING_MODAL)).
  reflexivity.
Defined.

(** X7.  Without a cancel request a modal step ends the update only when the
    log has reached the current revision, and it asks for another step after
    handling a process only when the log was behind; a step that returns
    [{'RUNNING_MODAL'}] leaves a log that is not empty and no process. *)
Theorem modal_outcomes
    (table : ascii -> option string) (spawn : string -> Popen)
    (w w' : world) (tr : list event) (r : op_return) :
  modal table spawn w = (w', tr, Return r) ->
  let latest := latest_log_rev (log (svn w)) in
  let current := prefs_revision_number w in
  r <> CANCELLED
  /\ (r = FINISHED ->
      log_update_in_progress (svn w') = false
      /\ (log_update_cancel_flag (svn w) = true \/ latest >= current))
  /\ (r = RUNNING_MODAL ->
      latest < current /\ log (svn w') <> [] /\ popen w' = None).
Proof.
  intros Hm. cbv zeta.
  pose proof (modal_effects table spawn w w' tr (Return r) Hm) as (_ & _ & H).
  cbv zeta in H. destruct r.
  - contradiction.
  - split; [discriminate|]. split; [discriminate|]. intros _. tauto.
  - split; [discriminate|]. split; [|discriminate]. intros _. tauto.
  - split; [discriminate|]. split; discriminate.
Qed.

Lemma modal_outcomes_witness :
  RUNNING_MODAL <> CANCELLED
  /\ (RUNNING_MODAL = FINISHED ->
      true = false /\ (false = true \/ 0 >= 25))
  /\ (RUNNING_MODAL = RUNNING_MODAL ->
      0 < 25 /\ [record_r1; record_r2] <> [] /\ @None Popen = None).
Proof.
  apply (modal_outcomes sample_status_char running_process
           (mk_world (mk_svn [] true false) 25 (Some (finished_process "svn log")) None)
           (mk_world (mk_svn [record_r1; record_r2] true false) 25 None
              (Some (log_text dashes [entry_r1; entry_r2])))
           [Poll (finished_process "svn log") (Some 0);
            Communicate (finished_process "svn log");
            AppendLogFile (log_text dashes [entry_r1; entry_r2]); ReadLogFile;
            Report "INFO" ("SVN Log now at r" ++ Py.str_of_int 2)]
           RUNNING_MODAL).
  reflexivity.
Defined.

(** X8.  A modal step that raises leaves [log_update_in_progress] as it
    was.  So when a step of a running update raises, the flag stays set and
    every later invoke of the operator is refused with the report that a
    process is already running. *)
Theorem modal_raise_blocks_invoke
    (table : ascii -> option string) (spawn : string -> Popen)
    (w w' : world) (tr : list event) (e : exn) :
  modal table spawn w = (w', tr, Raise e) ->
  log_update_in_progress (svn w') = log_update_in_progress (svn w)
  /\ (log_update_in_progress (svn w) = true ->
      invoke w'
      = (w', [Report "ERROR" "An SVN Log process is already running!"],
         Return CANCELLED)).
Proof.
  intros Hm.
  pose proof (modal_effects table spawn w w' tr (Raise e) Hm) as (_ & _ & _ & Hip).
  split; [exact Hip|].
  intros H. unfold invoke. rewrite Hip, H. reflexivity.
Qed.

(** X9.  When the process of the first fetch printed nothing and there is
    no log file, the step creates an empty file and the reader raises
    [StopIteration] on it: the step raises, with the log empty, the process
    forgotten and [log_update_in_progress] as it was. *)
Theorem modal_empty_output
    (table : ascii -> option string) (spawn : string -> Popen) (w : world)
    (p : Popen) (code : Z) :
  log_update_cancel_flag (svn w) = false ->
  popen w = Some p ->
  returncode p = Some code ->
  stdout_data p = EmptyString ->
  svn_log_file w = None ->
  latest_log_rev (log (svn w)) < prefs_revision_number w ->
  modal table spawn w
  = (mk_world (mk_svn [] (log_update_in_progress (svn w)) false)
       (prefs_revision_number w) None (Some EmptyString),
     [Poll p (Some code); Communicate p; AppendLogFile EmptyString; ReadLogFile],
     Raise StopIteration).
Proof.
  intros Hcancel Hp Hcode Hout Hfile Hlatest.
  unfold modal. rewrite Hcancel, Hp, Hcode. cbn [app].
  unfold modal_finished. cbn [svn_log_file with_popen svn].
  rewrite Hfile.
  destruct (Z.geb_spec (latest_log_rev (log (svn w))) (prefs_revision_number w)); [lia|].
  cbn [svn with_svn with_file svn_log_file with_popen prefs_revision_number popen].
  rewrite Hout, ?Hfile. cbn [append].
  unfold read_svn_log_file. cbn [file_chunks Py.readlines].
  unfold with_svn, with_file, with_popen, set_log.
  cbn [svn log log_update_in_progress log_update_cancel_flag prefs_revision_number
         popen svn_log_file app].
  rewrite Hcancel. reflexivity.
Qed.

Lemma modal_empty_output_witness :
  modal sample_status_char running_process
    (mk_world (mk_svn [] true false) 25 (Some (mk_Popen "svn log" (Some 1) "")) None)
  = (mk_world (mk_svn [] true false) 25 None (Some EmptyString),
     [Poll (mk_Popen "svn log" (Some 1) "") (Some 1);
      Communicate (mk_Popen "svn log" (Some 1) "");
      AppendLogFile EmptyString; ReadLogFile],
     Raise StopIteration).
Proof.
  apply (modal_empty_output sample_status_char running_process
           (mk_world (mk_svn [] true false) 25
              (Some (mk_Popen "svn log" (Some 1) "")) None)
           (mk_Popen "svn log" (Some 1) "") 1); reflexivity.
Defined.

Lemma modal_raise_blocks_invoke_witness :
  invoke (mk_world (mk_svn [] true false) 25 None (Some EmptyString))
  = (mk_world (mk_svn [] true false) 25 None (Some EmptyString),
     [Report "ERROR" "An SVN Log process is already running!"],
     Return CANCELLED).
Proof.
  apply (proj2 (modal_raise_blocks_invoke sample_status_char running_process
           (mk_world (mk_svn [] true false) 25
              (Some (mk_Popen "svn log" (Some 1) "")) None)
           (mk_world (mk_svn [] true false) 25 None (Some EmptyString))
           [Poll (mk_Popen "svn log" (Some 1) "") (Some 1);
            Communicate (mk_Popen "svn log" (Some 1) "");
            AppendLogFile EmptyString; ReadLogFile]
           StopIteration eq_refl)).
  reflexivity.
Defined.

(** X10.  The first modal step after an invoke that was accepted starts a
    subprocess for at least one and at most ten revisions: its range runs
    from the latest log revision plus one to a goal that is at least that
    and at most the current revision. *)
Theorem invoke_then_modal
    (table : ascii -> option string) (spawn : string -> Popen)
    (w w1 : world) (tr : list event) :
  invoke w = (w1, tr, Return RUNNING_MODAL) ->
  let latest := latest_log_rev (log (svn w)) in
  exists goal w2 rest r,
    modal table spawn w1 = (w2, Spawn (svn_log_command (latest + 1) goal) :: rest, r)
    /\ latest + 1 <= goal
    /\ goal <= latest + MAX_REVS_TO_DOWNLOAD
    /\ goal <= prefs_revision_number w.
Proof.
  unfold invoke. intros Hi. cbv zeta.
  destruct (log_update_in_progress (svn w)); [discriminate Hi|].
  destruct (Z.geb_spec (latest_log_rev (log (svn w))) (prefs_revision_number w))
    as [|Hlt]; [discriminate Hi|].
  injection Hi as <- _.
  set (latest := latest_log_rev (log (svn w))) in *.
  exists (latest + Z.min (prefs_revision_number w - latest) MAX_REVS_TO_DOWNLOAD).
  destruct (modal_cases table spawn
              (with_svn (with_svn (with_popen w None)
                           (set_in_progress (svn (with_popen w None)) true))
                 (set_cancel_flag
                    (svn (with_svn (with_popen w None)
                            (set_in_progress (svn (with_popen w None)) true)))
                    false)))
    as [[Hc _]|(_ & p & pre & w1 & Hpre & Hstep)]; [discriminate Hc|].
  cbn [svn with_svn with_popen set_in_progress set_cancel_flag log popen
         prefs_revision_number] in Hpre, Hstep.
  fold latest in Hpre, Hstep.
  destruct Hpre as [(Hp & _)|(_ & Hp & -> & _)]; [discriminate Hp|].
  unfold MAX_REVS_TO_DOWNLOAD.
  destruct Hstep as [(_ & ->)|(code & _ & Hs)].
  - do 3 eexists. split; [reflexivity|]. lia.
  - destruct (modal_finished table _ _ _ _ _) as [[w2 tr2] r2] eqn:Hf in Hs.
    apply modal_finished_spec in Hf as (_ & extra & -> & _).
    rewrite Hs. do 3 eexists. split; [reflexivity|]. lia.
Qed.

Lemma invoke_then_modal_witness :
  exists goal w2 rest r,
    modal sample_status_char running_process world_started
    = (w2, Spawn (svn_log_command (0 + 1) goal) :: rest, r)
    /\ 0 + 1 <= goal
    /\ goal <= 0 + MAX_REVS_TO_DOWNLOAD
    /\ goal <= 25.
Proof.
  apply (invoke_then_modal sample_status_char running_process world_idle world_started
           [Report "INFO" "Begin updating SVN log, this may take a while. Autosave is now disabled! Click the button again to cancel.";
            ModalHandlerAdd]).
  reflexivity.
Defined.

(** ** [gen_config_from_scene]: how a call ends *)

Lemma gen_config_item_outcome (context : bpy_context) (libfile : string) (item : ID)
    (meta : json) (m : list (string * list (string * json))) :
  (name_missing context item = true
   /\ gen_config_item context libfile item (config_json meta m) = Raise KeyError)
  \/ (name_missing context item = false
      /\ exists m', gen_config_item context libfile item (config_json meta m)
                    = Return (config_json meta m')).
Proof.
  destruct (name_missing context item) eqn:Hmiss.
  - left. split; [reflexivity|].
    unfold name_missing in Hmiss. apply andb_true_iff in Hmiss as [Hc Hfind].
    unfold gen_config_item, collections_getitem. rewrite Hc. cbn [negb].
    destruct (find _ _); [discriminate Hfind|reflexivity].
  - right. split; [reflexivity|]. eexists. apply gen_config_item_step, Hmiss.
Qed.

Lemma gen_config_items_outcome (context : bpy_context) (libfile : string)
    (items : list ID) (meta : json) :
  forall m,
    (existsb (name_missing context) items = true
     /\ gen_config_items context libfile items (config_json meta m) = Raise KeyError)
    \/ (existsb (name_missing context) items = false
        /\ exists m', gen_config_items context libfile items (config_json meta m)
                      = Return (config_json meta m')).
Proof.
  induction items as [|item items IH]; intros m; cbn [existsb gen_config_items].
  - right. split; [reflexivity|]. exists m. reflexivity.
  - destruct (gen_config_item_outcome context libfile item meta m)
      as [(-> & ->)|(-> & m1 & ->)]; cbn [orb bind].
    + left. split; reflexivity.
    + apply IH.
Qed.

Lemma gen_config_libraries_outcome (abspath_posix : string -> string)
    (context : bpy_context) (libraries : list Library) (meta : json) :
  forall m,
    (existsb (fun lib => existsb (name_missing context) (users_id lib)) libraries = true
     /\ gen_config_libraries abspath_posix context libraries (config_json meta m)
        = Raise KeyError)
    \/ (existsb (fun lib => existsb (name_missing context) (users_id lib)) libraries
        = false
        /\ exists m', gen_config_libraries abspath_posix context libraries
                        (config_json meta m)
                      = Return (config_json meta m')).
Proof.
  induction libraries as [|lib libraries IH]; intros m;
    cbn [existsb gen_config_libraries].
  - right. split; [reflexivity|]. exists m. reflexivity.
  - destruct (gen_config_items_outcome context (abspath_posix (lib_filepath lib))
                (users_id lib) meta m) as [(-> & ->)|(-> & m1 & ->)]; cbn [orb bind].
    + left. split; reflexivity.
    + apply IH.
Qed.

(** The ways a call of [gen_config_from_scene] can end. *)
Lemma gen_config_from_scene_cases
    (abspath_posix : string -> string) (context : bpy_context) (fs : disk)
    (path : string) :
  (any_name_missing context = true ->
   gen_config_from_scene abspath_posix context fs path = (fs, Raise KeyError))
  /\ (any_name_missing context = false ->
      forall e, open_w fs path = Raise e ->
      gen_config_from_scene abspath_posix context fs path = (fs, Raise e))
  /\ (any_name_missing context = false -> open_w fs path = Return tt ->
      exists obj,
        gen_config_from_scene abspath_posix context fs path
        = (disk_write fs path (Json obj), Return (mk_CacheConfig path obj))).
Proof.
  unfold any_name_missing, gen_config_from_scene.
  set (meta := JDict [("name", JStr (Path.name (Path.of_string (data_filepath context))));
                      ("creation_date", JStr (current_time_string context))]).
  change (bind (getitem _CACHECONFIG_TEMPL "meta") _)
    with (gen_config_libraries abspath_posix context (data_libraries context)
            (config_json meta [])).
  destruct (gen_config_libraries_outcome abspath_posix context
              (data_libraries context) meta []) as [(-> & ->)|(-> & m & ->)].
  - split; [reflexivity|]. split; discriminate.
  - split; [discriminate|]. split.
    + intros _ e He. unfold save_as_json. rewrite He. reflexivity.
    + intros _ Hopen. exists (config_json meta m).
      destruct (save_then_init fs (config_json meta m) path Hopen) as [-> ->].
      reflexivity.
Qed.



(** X13.  A configuration that [gen_config_from_scene] returned can be
    loaded again: [load_config_from_file] on the disk the call leaves, at
    the same path, returns the same [CacheConfig]. *)
Theorem gen_config_then_load
    (abspath_posix : string -> string) (context : bpy_context) (fs : disk)
    (path : string) (config : CacheConfig) :
  snd (gen_config_from_scene abspath_posix context fs path) = Return config ->
  load_config_from_file (fst (gen_config_from_scene abspath_posix context fs path)) path
  = Return config.
Proof.
  destruct (gen_config_from_scene_cases abspath_posix context fs path)
    as (H1 & H2 & H3).
  destruct (any_name_missing context).
  - rewrite (H1 eq_refl). discriminate.
  - destruct (open_w fs path) as [[]|e].
    + destruct (H3 eq_refl eq_refl) as (obj & ->).
      cbn [fst snd]. intros H; injection H as <-.
      unfold load_config_from_file, CacheConfig_init, read_json, disk_write.
      rewrite String.eqb_refl. reflexivity.
    + rewrite (H2 eq_refl e eq_refl). discriminate.
Qed.

Lemma gen_config_then_load_witness :
  load_config_from_file
    (fst (gen_config_from_scene (fun p => p) sample_context disk_tmp "/tmp/cfg.json"))
    "/tmp/cfg.json"
  = snd (gen_config_from_scene (fun p => p) sample_context disk_tmp "/tmp/cfg.json").
Proof.
  destruct (snd (gen_config_from_scene (fun p => p) sample_context disk_tmp
                   "/tmp/cfg.json")) as [config|e] eqn:H.
  - apply (gen_config_then_load (fun p => p) sample_context disk_tmp
             "/tmp/cfg.json" config H).
  - vm_compute in H. discriminate H.
Defined.

(** ** [gen_cachepath_collection] *)

(** X14.  [gen_cachepath_collection] never raises, the empty cache
    directory included; the path it returns is absolute when the working
    directory is, and for a collection whose name holds no slash its last
    component is [<collection name>.abc]. *)
Theorem gen_cachepath_collection_path (context : bpy_context) (coll : ID) :
  exists p,
    gen_cachepath_collection context coll = Return p
    /\ (Path.is_absolute (Path.of_string (getcwd context)) = true ->
        Path.is_absolute p = true)
    /\ (has_char "/" (id_name coll) = false ->
        Path.name p = (id_name coll ++ ".abc")%string).
Proof.
  eexists. split; [reflexivity|]. split.
  - intros Hcwd. unfold Path.absolute.
    destruct (Path.is_absolute (Path.joinpath _ _)) eqn:E; [exact E|].
    exact Hcwd.
  - intros Hn. unfold gen_filename_collection.
    destruct (abc_name_plain (id_name coll)) as [He Hd].
    assert (Hs : has_char "/" (id_name coll ++ ".abc") = false)
      by (rewrite has_char_app, Hn; reflexivity).
    unfold Path.joinpath. rewrite (path_of_plain_name _ Hs He Hd).
    cbn [Path.is_absolute Path.root Path.parts String.eqb negb].
    unfold Path.absolute.
    destruct (Path.is_absolute _); unfold Path.name; cbn [Path.parts];
      rewrite ?app_assoc; apply last_last.
Qed.

Lemma gen_cachepath_collection_path_witness :
  Path.name
    (Path.absolute "/home/artist"
       (Path.joinpath (Path.of_string "") (gen_filename_collection (mk_ID "Collection" "hero" 1))))
  = "hero.abc".
Proof.
  destruct (gen_cachepath_collection_path
              (mk_context "" "" [] [] [] "" "/home/artist")
              (mk_ID "Collection" "hero" 1)) as (p & Hp & _ & Hname).
  injection Hp as <-. apply Hname. reflexivity.
Defined.

(** ** [CacheConfig._add_coll_to_cm_collections] *)

Lemma existsb_name_In (n : string) (l : list string) :
  existsb (String.eqb n) l = true <-> In n l.
Proof.
  rewrite existsb_exists. split.
  - intros (x & Hx & He). apply String.eqb_eq in He as ->. exact Hx.
  - intros H. exists n. split; [exact H|apply String.eqb_refl].
Qed.

(** X15.  [_add_coll_to_cm_collections] keeps the items the scene has, in
    their order; afterwards the list has an item of the collection's name;
    names that were distinct stay distinct; a second call with the same
    collection changes nothing; and when an item was added, the index of
    the scene is the position of that item. *)
Theorem add_coll_to_cm_collections_keeps (scn : cm_scene) (coll : ID) :
  let scn' := fst (_add_coll_to_cm_collections scn coll) in
  (exists added, cm_collections scn' = cm_collections scn ++ added)
  /\ In (id_name coll) (map item_name (cm_collections scn'))
  /\ (NoDup (map item_name (cm_collections scn)) ->
      NoDup (map item_name (cm_collections scn')))
  /\ _add_coll_to_cm_collections scn' coll = (scn', coll)
  /\ (~ In (id_name coll) (map item_name (cm_collections scn)) ->
      collection_getitem (cm_collections scn') (cm_collections_index scn')
      = Return (mk_cm_item (id_name coll) coll)).
Proof.
  cbv zeta. unfold _add_coll_to_cm_collections.
  destruct (existsb (String.eqb (id_name coll)) (map item_name (cm_collections scn)))
    eqn:E; cbn [fst].
  - apply existsb_name_In in E as Hin. repeat split.
    + exists []. rewrite app_nil_r. reflexivity.
    + exact Hin.
    + auto.
    + rewrite E. reflexivity.
    + intros Hn. contradiction.
  - assert (Hnin : ~ In (id_name coll) (map item_name (cm_collections scn))).
    { intros Hin. apply existsb_name_In in Hin. congruence. }
    cbn [cm_collections cm_collections_index].
    assert (Hin' : In (id_name coll)
                     (map item_name (cm_collections scn ++ [mk_cm_item (id_name coll) coll]))).
    { rewrite map_app. apply in_or_app. right. left. reflexivity. }
    repeat split.
    + eexists. reflexivity.
    + exact Hin'.
    + intros Hnd. rewrite map_app. cbn [map item_name].
      apply NoDup_app; [exact Hnd|repeat constructor; intros []|].
      intros n H1 [<-|[]]. exact (Hnin H1).
    + apply existsb_name_In in Hin'. rewrite Hin'. reflexivity.
    + intros _. unfold collection_getitem. rewrite length_app. cbn [List.length].
      set (n := List.length (cm_collections scn)).
      destruct (Z.ltb_spec (Z.of_nat (n + 1) - 1) 0); [lia|].
      destruct (Z.leb_spec 0 (Z.of_nat (n + 1) - 1)); [|lia].
      destruct (Z.ltb_spec (Z.of_nat (n + 1) - 1) (Z.of_nat (n + 1))); [|lia].
      cbn [andb].
      replace (Z.to_nat (Z.of_nat (n + 1) - 1)) with (n + 0)%nat by lia.
      unfold n. rewrite nth_error_app2, Nat.add_comm, Nat.add_sub by lia.
      reflexivity.
Qed.

Lemma add_coll_to_cm_collections_keeps_witness :
  collection_getitem
    [mk_cm_item "hero" (mk_ID "Collection" "hero" 1);
     mk_cm_item "chair" (mk_ID "Collection" "chair" 4)] 1
  = Return (mk_cm_item "chair" (mk_ID "Collection" "chair" 4)).
Proof.
  apply (proj2 (proj2 (proj2 (proj2
           (add_coll_to_cm_collections_keeps
              (mk_cm_scene [mk_cm_item "hero" (mk_ID "Collection" "hero" 1)] 0)
              (mk_ID "Collection" "chair" 4)))))).
  intros [H|[]]. discriminate H.
Defined.

(** ** Registering twice, and registering again after unregistering *)

Lemma mem_app (c : string) (a b : list string) :
  mem c (a ++ b) = (mem c a || mem c b)%bool.
Proof. unfold mem. apply existsb_app. Qed.

Lemma mem_filter_same (c : string) (l : list string) :
  mem c (filter (fun x => negb (String.eqb x c)) l) = false.
Proof.
  unfold mem. induction l as [|x l IH]; cbn [filter existsb]; [reflexivity|].
  destruct (String.eqb_spec x c) as [->|Hne]; cbn [negb existsb]; [exact IH|].
  rewrite IH. destruct (String.eqb_spec c x); [congruence|reflexivity].
Qed.

Lemma mem_filter_other (c d : string) (l : list string) :
  c <> d -> mem c (filter (fun x => negb (String.eqb x d)) l) = mem c l.
Proof.
  intros Hne. unfold mem. induction l as [|x l IH]; cbn [filter existsb]; [reflexivity|].
  destruct (String.eqb_spec x d) as [->|Hx]; cbn [negb existsb].
  - rewrite IH. destruct (String.eqb_spec c d); [contradiction|reflexivity].
  - rewrite IH. reflexivity.
Qed.

(** What a [register] of blezou that succeeds has found and left. *)
Lemma blezou_register_inv (h h1 : host) :
  Blezou.register h = Return h1 ->
  mem "BZ_PopertyGroup_SEQ_Shot" (registered_classes h) = false
  /\ mem "BZ_PopertyGroup_BlezouData" (registered_classes h) = false
  /\ registered_classes h1
     = registered_classes h ++ ["BZ_PopertyGroup_SEQ_Shot"; "BZ_PopertyGroup_BlezouData"]
  /\ load_post h1 = load_post h ++ [Blezou.load_post_handler].
Proof.
  unfold Blezou.register, Blezou.classes. cbn [for_each].
  unfold register_class at 1.
  destruct (mem "BZ_PopertyGroup_SEQ_Shot" (registered_classes h)) eqn:E1;
    cbn [bind]; [discriminate|].
  unfold register_class at 1. cbn [registered_classes].
  rewrite mem_app.
  destruct (mem "BZ_PopertyGroup_BlezouData" (registered_classes h)) eqn:E2;
    cbn [orb bind]; [discriminate|].
  cbn [mem existsb String.eqb Ascii.eqb Bool.eqb orb bind].
  intros H; injection H as <-.
  cbn [registered_classes load_post]. rewrite <- app_assoc. repeat split.
Qed.

Lemma blezou_register_fresh (h : host) :
  mem "BZ_PopertyGroup_SEQ_Shot" (registered_classes h) = false ->
  mem "BZ_PopertyGroup_BlezouData" (registered_classes h) = false ->
  exists h1, Blezou.register h = Return h1.
Proof.
  intros E1 E2. unfold Blezou.register, Blezou.classes. cbn [for_each].
  unfold register_class at 1. rewrite E1. cbn [bind].
  unfold register_class at 1. cbn [registered_classes].
  rewrite mem_app, E2.
  cbn [mem existsb String.eqb Ascii.eqb Bool.eqb orb bind].
  eexists. reflexivity.
Qed.

Lemma blezou_unregister_after (h1 : host) (rc : list string) :
  registered_classes h1
  = rc ++ ["BZ_PopertyGroup_SEQ_Shot"; "BZ_PopertyGroup_BlezouData"] ->
  exists h2,
    Blezou.unregister h1 = Return h2
    /\ mem "BZ_PopertyGroup_SEQ_Shot" (registered_classes h2) = false
    /\ mem "BZ_PopertyGroup_BlezouData" (registered_classes h2) = false
    /\ load_post h2 = load_post h1.
Proof.
  intros Hrc. unfold Blezou.unregister, Blezou.classes. cbn [rev app for_each].
  unfold unregister_class at 1. rewrite Hrc, mem_app.
  cbn [mem existsb String.eqb Ascii.eqb Bool.eqb orb andb].
  rewrite orb_true_r. cbn [bind].
  unfold unregister_class at 1. cbn [registered_classes].
  rewrite filter_app, mem_app.
  cbn [filter String.eqb Ascii.eqb Bool.eqb negb andb mem existsb orb].
  rewrite orb_true_r. cbn [bind].
  eexists. split; [reflexivity|].
  cbn [clear_cache_variables registered_classes load_post].
  split; [apply mem_filter_same|]. split; [|reflexivity].
  rewrite mem_filter_other by discriminate.
  rewrite mem_app.
  rewrite (mem_filter_same "BZ_PopertyGroup_BlezouData" rc). reflexivity.
Qed.

(** X16.  The [register] and [unregister] of blezou cannot be repeated: in
    the host a [register] leaves, a second [register] raises [ValueError];
    and in the host the [unregister] after it leaves, a second [unregister]
    raises [RuntimeError]. *)
Theorem blezou_register_twice (h h1 : host) :
  Blezou.register h = Return h1 ->
  Blezou.register h1 = Raise ValueError
  /\ exists h2,
       Blezou.unregister h1 = Return h2
       /\ Blezou.unregister h2 = Raise RuntimeError.
Proof.
  intros Hreg.
  destruct (blezou_register_inv h h1 Hreg) as (_ & _ & Hrc & _).
  split.
  - unfold Blezou.register, Blezou.classes. cbn [for_each].
    unfold register_class at 1. rewrite Hrc, mem_app.
    cbn [mem existsb String.eqb Ascii.eqb Bool.eqb orb andb].
    rewrite orb_true_r. reflexivity.
  - destruct (blezou_unregister_after h1 _ Hrc) as (h2 & Hun & _ & Hbd & _).
    exists h2. split; [exact Hun|].
    unfold Blezou.unregister, Blezou.classes. cbn [rev app for_each].
    unfold unregister_class at 1. rewrite Hbd. reflexivity.
Qed.

Lemma blezou_register_twice_witness :
  exists h1,
    Blezou.register fresh_host = Return h1
    /\ Blezou.register h1 = Raise ValueError.
Proof.
  destruct (Blezou.register fresh_host) as [h1|e] eqn:H.
  - exists h1. split; [reflexivity|].
    exact (proj1 (blezou_register_twice fresh_host h1 H)).
  - vm_compute in H. discriminate H.
Defined.

(** X17.  After a [register] and the [unregister] that follows it, blezou
    can be registered again, and each round leaves one more
    [load_post_handler] in [load_post]: after the second [register] the list
    ends with two of them. *)
Theorem blezou_register_again (h h1 : host) :
  Blezou.register h = Return h1 ->
  exists h2 h3,
    Blezou.unregister h1 = Return h2
    /\ Blezou.register h2 = Return h3
    /\ load_post h3
       = load_post h ++ [Blezou.load_post_handler; Blezou.load_post_handler].
Proof.
  intros Hreg.
  destruct (blezou_register_inv h h1 Hreg) as (_ & _ & Hrc & Hlp).
  destruct (blezou_unregister_after h1 _ Hrc) as (h2 & Hun & Hs & Hb & Hlp2).
  destruct (blezou_register_fresh h2 Hs Hb) as (h3 & Hreg3).
  exists h2, h3. split; [exact Hun|]. split; [exact Hreg3|].
  destruct (blezou_register_inv h2 h3 Hreg3) as (_ & _ & _ & Hlp3).
  rewrite Hlp3, Hlp2, Hlp, <- app_assoc. reflexivity.
Qed.

Lemma blezou_register_again_witness :
  exists h2 h3,
    Blezou.unregister
      (mk_host ["BZ_PopertyGroup_SEQ_Shot"; "BZ_PopertyGroup_BlezouData"]
         [("blezou", mk_PointerProperty "Blezou" "BZ_PopertyGroup_SEQ_Shot"
                       "Metadata that is required for blezou")]
         [("blezou", mk_PointerProperty "Blezou" "BZ_PopertyGroup_BlezouData"
                       "Metadata that is required for blezou")]
         ["load_post_handler"] (mk_blezou_cache None None None None))
    = Return h2
    /\ Blezou.register h2 = Return h3
    /\ load_post h3 = [] ++ [Blezou.load_post_handler; Blezou.load_post_handler].
Proof.
  apply (blezou_register_again fresh_host). reflexivity.
Defined.

(** ** [SVN_UL_log.filter_items] *)

Lemma affects_iff (path : string) (files : list SVN_file) :
  affects path files = true <-> exists f, In f files /\ svn_path f = path.
Proof.
  induction files as [|f files IH]; cbn [affects].
  - split; [discriminate|]. intros (f & [] & _).
  - destruct (String.eqb_spec (svn_path f) path) as [He|Hne].
    + split; [|reflexivity]. intros _. exists f. split; [left; reflexivity|exact He].
    + rewrite IH. split.
      * intros (g & Hg & Hp). exists g. split; [right; exact Hg|exact Hp].
      * intros (g & [<-|Hg] & Hp); [contradiction|]. exists g. split; assumption.
Qed.

Lemma list_setitem_app (A : Type) (done rest : list A) (x v : A) :
  list_setitem (done ++ x :: rest) (List.length done) v = Return (done ++ v :: rest).
Proof.
  induction done as [|d done IH]; cbn [app List.length list_setitem]; [reflexivity|].
  rewrite IH. reflexivity.
Qed.

Lemma filter_entries_flags (path : string) (bitflag : Z) (entries : list SVN_log) :
  forall done,
    filter_entries path bitflag (List.length done) entries
      (done ++ repeat 0 (List.length entries))
    = Return (done ++ map (fun e => if affects path (changed_files e)
                                    then bitflag else 0) entries).
Proof.
  induction entries as [|e entries IH]; intros done;
    cbn [filter_entries List.length repeat map].
  - reflexivity.
  - destruct (affects path (changed_files e)).
    + rewrite list_setitem_app. cbn [bind].
      replace (S (List.length done)) with (List.length (done ++ [bitflag]))
        by (rewrite length_app; cbn [List.length]; lia).
      replace (done ++ bitflag :: repeat 0 (List.length entries))
        with ((done ++ [bitflag]) ++ repeat 0 (List.length entries))
        by (rewrite <- app_assoc; reflexivity).
      rewrite IH, <- app_assoc. reflexivity.
    + replace (S (List.length done)) with (List.length (done ++ [0]))
        by (rewrite length_app; cbn [List.length]; lia).
      replace (done ++ 0 :: repeat 0 (List.length entries))
        with ((done ++ [0]) ++ repeat 0 (List.length entries))
        by (rewrite <- app_assoc; reflexivity).
      rewrite IH, <- app_assoc. reflexivity.
Qed.

(** X18.  [filter_items] on the log itself, with an active file: it returns
    one flag per log entry and no new order; the flag of an entry is
    [bitflag_filter_item] when one of its changed files has the path of the
    active file after a slash, and 0 otherwise.  Without any external file
    it raises [IndexError]. *)
Theorem filter_items_flags
    (bitflag : Z) (external_files : list SVN_file) (active_index : Z)
    (entries : list SVN_log) :
  (forall active_file,
     collection_getitem external_files active_index = Return active_file ->
     exists flt_flags,
       filter_items bitflag (List.length entries) external_files active_index entries
       = Return (flt_flags, [])
       /\ List.length flt_flags = List.length entries
       /\ forall i e,
            nth_error entries i = Some e ->
            (nth_error flt_flags i = Some bitflag
             /\ exists f, In f (changed_files e)
                          /\ svn_path f = ("/" ++ svn_path active_file)%string)
            \/ (nth_error flt_flags i = Some 0
                /\ ~ exists f, In f (changed_files e)
                               /\ svn_path f = ("/" ++ svn_path active_file)%string))
  /\ (external_files = [] ->
      filter_items bitflag (List.length entries) external_files active_index entries
      = Raise IndexError).
Proof.
  split.
  - intros active Hact. unfold filter_items. rewrite Hact. cbn [bind].
    rewrite (filter_entries_flags _ bitflag entries []). cbn [app bind].
    eexists. split; [reflexivity|]. split; [apply length_map|].
    intros i e Hi. rewrite nth_error_map, Hi. cbn [option_map].
    destruct (affects ("/" ++ svn_path active) (changed_files e)) eqn:E.
    + left. split; [reflexivity|]. apply affects_iff, E.
    + right. split; [reflexivity|]. intros H. apply affects_iff in H. congruence.
  - intros ->. unfold filter_items, collection_getitem. cbn [List.length].
    destruct (active_index <? 0) eqn:E.
    + destruct (Z.leb_spec 0 (Z.of_nat 0 + active_index)); [|reflexivity].
      apply Z.ltb_lt in E. lia.
    + destruct (Z.leb_spec 0 active_index); [|reflexivity].
      destruct (Z.ltb_spec active_index (Z.of_nat 0)); [lia|reflexivity].
Qed.

Lemma filter_items_flags_witness :
  exists flt_flags,
    filter_items 1073741824 2
      [mk_SVN_file "a.blend" "trunk/a.blend" "normal" 2] 0 [record_r1; record_r2]
    = Return (flt_flags, [])
    /\ List.length flt_flags = 2%nat
    /\ nth_error flt_flags 1 = Some 1073741824.
Proof.
  destruct (proj1 (filter_items_flags 1073741824
                     [mk_SVN_file "a.blend" "trunk/a.blend" "normal" 2] 0
                     [record_r1; record_r2])
              (mk_SVN_file "a.blend" "trunk/a.blend" "normal" 2) eq_refl)
    as (flags & Hf & Hlen & Hflags).
  exists flags. split; [exact Hf|]. split; [exact Hlen|].
  destruct (Hflags 1%nat record_r2 eq_refl) as [[H _]|[_ H]]; [exact H|].
  exfalso. apply H. eexists. split; [left; reflexivity|reflexivity].
Defined.

(** ** [SVN_UL_log.draw_item]: the message and the date of a row *)

(** The first piece of a split on one character: it is free of the
    character, and the text is the piece, or the piece, the character and
    more. *)
Lemma split_first (c : ascii) (s : string) :
  exists piece rest,
    Py.split (String c "") s = piece :: rest
    /\ has_char c piece = false
    /\ (s = piece \/ exists tail, s = (piece ++ String c tail)%string).
Proof.
  unfold Py.split. induction s as [|a s IH].
  - exists EmptyString, []. repeat split. left. reflexivity.
  - cbn [Py.split_go String.prefix String.length Nat.pred].
    destruct (ascii_dec c a) as [<-|Hne].
    + destruct s; eexists EmptyString, _;
        (split; [reflexivity|]); (split; [reflexivity|]); right; eexists; reflexivity.
    + destruct IH as (piece & rest & -> & Hfree & Htext).
      exists (String a piece), rest. split; [reflexivity|]. split.
      * cbn [has_char]. rewrite Hfree.
        destruct (Ascii.eqb_spec a c); [congruence|reflexivity].
      * destruct Htext as [->|(tail & ->)]; [left; reflexivity|].
        right. exists tail. reflexivity.
Qed.

(** X19.  The message [draw_item] shows for an entry is the commit message
    up to its first newline: it holds no newline, and the commit message is
    this text, or this text, a newline and more. *)
Theorem draw_item_message_first_line (log_entry : SVN_log) :
  has_char Py.newline (draw_item_message log_entry) = false
  /\ (commit_message log_entry = draw_item_message log_entry
      \/ exists tail,
           commit_message log_entry
           = (draw_item_message log_entry ++ nl ++ tail)%string).
Proof.
  unfold draw_item_message. cbv zeta.
  destruct (has_char Py.newline (commit_message log_entry)) eqn:E.
  - destruct (split_first Py.newline (commit_message log_entry))
      as (piece & rest & Hs & Hfree & Htext).
    change nl with (String Py.newline ""). rewrite Hs. cbn [hd].
    split; [exact Hfree|].
    destruct Htext as [H|(tail & H)]; [left; exact H|].
    right. exists tail. exact H.
  - split; [exact E|]. left. reflexivity.
Qed.

Lemma split_head (c : ascii) (a b : string) :
  has_char c a = false ->
  hd EmptyString (Py.split (String c "") (a ++ String c b)) = a.
Proof.
  unfold Py.split. induction a as [|x a IH]; intros H.
  - cbn [append Py.split_go String.prefix].
    destruct (ascii_dec c c) as [_|Hne]; [|contradiction].
    destruct b; reflexivity.
  - cbn [has_char] in H. apply orb_false_iff in H as [Hx Ha].
    cbn [append Py.split_go String.prefix].
    destruct (ascii_dec c x) as [->|_].
    + rewrite Ascii.eqb_refl in Hx. discriminate Hx.
    + specialize (IH Ha).
      destruct (Py.split_go (String c "") (a ++ String c b) 0) as [|piece rest];
        cbn [hd] in *; subst; reflexivity.
Qed.

Lemma range_check (P : Z -> bool) (lo n : Z) :
  forallb (fun k => P (lo + Z.of_nat k)) (seq 0 (Z.to_nat n)) = true ->
  forall z, lo <= z < lo + n -> P z = true.
Proof.
  intros H z Hz. rewrite forallb_forall in H.
  replace z with (lo + Z.of_nat (Z.to_nat (z - lo))) by lia.
  apply H. apply in_seq. lia.
Qed.

Lemma year_text (y : Z) :
  1000 <= y <= 9999 ->
  String.length (Py.str_of_int y) = 4%nat /\ has_char " " (Py.str_of_int y) = false.
Proof.
  intros Hy.
  assert (H : (Nat.eqb (String.length (Py.str_of_int y)) 4
               && negb (has_char " " (Py.str_of_int y)))%bool = true).
  { apply (range_check
             (fun z => (Nat.eqb (String.length (Py.str_of_int z)) 4
                        && negb (has_char " " (Py.str_of_int z)))%bool)
             1000 9000); [vm_compute; reflexivity|lia]. }
  apply andb_true_iff in H as [H1 H2].
  split; [apply Nat.eqb_eq, H1|apply negb_true_iff, H2].
Qed.

Lemma day_text (d : Z) :
  1 <= d <= 31 -> has_char " " (Py.str_of_int d) = false.
Proof.
  intros Hd. apply negb_true_iff.
  apply (range_check (fun z => negb (has_char " " (Py.str_of_int z))) 1 31);
    [vm_compute; reflexivity|lia].
Qed.

Lemma month_text (m : Z) :
  1 <= m <= 12 -> has_char " " (Datetime.month_abbr m) = false.
Proof.
  intros Hm. apply negb_true_iff.
  apply (range_check (fun z => negb (has_char " " (Datetime.month_abbr z))) 1 12);
    [vm_compute; reflexivity|lia].
Qed.

(** X20.  For an entry whose date was written by the reader from a time
    stamp with a year of four digits, the date [draw_item] shows is the
    abbreviated month, a dash and the day: the year and its dash are cut
    off, and so is the time. *)
Theorem draw_item_date_month_day (log_entry : SVN_log) (dt : Datetime.datetime) :
  revision_date log_entry = revision_date_string dt ->
  1000 <= Datetime.year dt <= 9999 ->
  1 <= Datetime.month dt <= 12 ->
  1 <= Datetime.day dt <= 31 ->
  draw_item_date log_entry
  = (Datetime.month_abbr (Datetime.month dt) ++ "-"
     ++ Py.str_of_int (Datetime.day dt))%string.
Proof.
  intros Hdate Hy Hm Hd. unfold draw_item_date. rewrite Hdate.
  unfold revision_date_string. cbv zeta.
  destruct (year_text _ Hy) as [Hlen Hys].
  pose proof (month_text _ Hm) as Hms.
  pose proof (day_text _ Hd) as Hds.
  set (Y := Py.str_of_int (Datetime.year dt)) in *.
  set (M := Datetime.month_abbr (Datetime.month dt)) in *.
  set (D := Py.str_of_int (Datetime.day dt)) in *.
  change ((Y ++ "-" ++ M ++ "-" ++ D) ++ " " ++ ?t)%string
    with ((Y ++ "-" ++ M ++ "-" ++ D) ++ String " " t)%string.
  rewrite split_head.
  - destruct Y as [|a [|b [|c [|d [|? ?]]]]]; try discriminate Hlen. reflexivity.
  - rewrite !has_char_app, Hys, Hms, Hds. reflexivity.
Qed.

Lemma draw_item_date_month_day_witness :
  draw_item_date record_r1 = ("Jan" ++ "-" ++ "5")%string.
Proof.
  apply (draw_item_date_month_day record_r1
           (Datetime.mk_datetime 2022 1 5 10 7 33)).
  - reflexivity.
  - cbn. lia.
  - cbn. lia.
  - cbn. lia.
Defined.

(** ** [read_svn_log_file]: entries and chunks *)

Lemma read_entries_length (table : ascii -> option string) (chunks : list (list string)) :
  forall previous acc,
    snd (read_entries table previous chunks acc) = Return tt ->
    List.length (fst (read_entries table previous chunks acc))
    = (List.length acc + List.length chunks)%nat.
Proof.
  induction chunks as [|chunk chunks IH]; intros previous acc H; cbn [read_entries] in *.
  - cbn [fst List.length]. lia.
  - pose proof (read_chunk_added table previous chunk) as Ha.
    destruct (read_chunk table previous chunk) as [[e|] [n|ex]];
      try discriminate H; try contradiction.
    rewrite (IH _ _ H), length_app. cbn [List.length]. lia.
Qed.

(** X21.  When [read_svn_log_file] returns normally, the log has exactly one
    entry for each chunk of the file, that is for each run of lines closed
    by a line of dashes. *)
Theorem read_svn_log_file_one_entry_per_chunk
    (table : ascii -> option string) (svn : SVN_scene_properties)
    (text : string) (chunks : list (list string)) :
  file_chunks text = Return chunks ->
  snd (read_svn_log_file table svn (Some text)) = Return tt ->
  List.length (log (fst (read_svn_log_file table svn (Some text))))
  = List.length chunks.
Proof.
  intros Hc. rewrite (read_svn_log_file_chunks table svn text chunks Hc).
  cbn [fst snd log set_log]. intros H.
  rewrite (read_entries_length table chunks 0 [] H). reflexivity.
Qed.

Lemma read_svn_log_file_one_entry_per_chunk_witness :
  List.length
    (log (fst (read_svn_log_file sample_status_char svn0
                 (Some (log_text dashes [svn_entry_r1; svn_entry_r2])))))
  = List.length [entry_r1; entry_r2].
Proof.
  apply (read_svn_log_file_one_entry_per_chunk sample_status_char svn0
           (log_text dashes [svn_entry_r1; svn_entry_r2]) [entry_r1; entry_r2]);
    reflexivity.
Defined.

(** X22.  A chunk whose first line cannot be read stops the reader: when
    the chunks before it are read without error, the call raises the error
    of that first line, [IndexError] for a chunk without lines (two lines of
    dashes in a row) and [ValueError] otherwise, and the log holds the
    entries of the chunks before and nothing of this chunk or the later
    ones. *)
Theorem read_svn_log_file_bad_head
    (table : ascii -> option string) (svn : SVN_scene_properties)
    (text : string) (good rest : list (list string)) (bad : list string) (e : exn) :
  file_chunks text = Return (good ++ bad :: rest) ->
  snd (read_entries table 0 good []) = Return tt ->
  chunk_head bad = Raise e ->
  read_svn_log_file table svn (Some text)
  = (set_log svn (fst (read_entries table 0 good [])), Raise e)
  /\ (bad = [] -> e = IndexError)
  /\ (bad <> [] -> e = ValueError).
Proof.
  intros Hc Hgood Hhead.
  rewrite (read_svn_log_file_chunks table svn text _ Hc).
  rewrite (read_entries_app table good (bad :: rest) 0 [] Hgood).
  cbn [read_entries]. unfold read_chunk. rewrite Hhead.
  rewrite app_nil_r. split; [reflexivity|]. split.
  - intros ->. cbn in Hhead. injection Hhead as <-. reflexivity.
  - intros Hne. destruct bad as [|line bad]; [contradiction|].
    unfold chunk_head in Hhead. cbn [nth_error of_option bind] in Hhead.
    destruct (Py.split " | " line) as [|a [|b [|c [|d [|? ?]]]]];
      try (injection Hhead as <-; reflexivity).
    destruct (Py.int (Py.str_from 1 a)) as [n|ex] eqn:Hi; cbn [bind] in Hhead.
    + discriminate Hhead.
    + injection Hhead as <-. exact (int_raise _ _ Hi).
Qed.

Lemma read_svn_log_file_bad_head_witness :
  read_svn_log_file sample_status_char svn0
    (Some (log_text dashes [svn_entry_r1; []; svn_entry_r2]))
  = (set_log svn0 [record_r1], Raise IndexError).
Proof.
  apply (proj1 (read_svn_log_file_bad_head sample_status_char svn0
           (log_text dashes [svn_entry_r1; []; svn_entry_r2])
           [entry_r1] [entry_r2] [] IndexError eq_refl eq_refl eq_refl)).
Defined.

(** ** A collection whose name starts with a slash *)

(** X23.  For a collection whose name starts with a slash the cache path
    does not lie in the cache directory: [joinpath] takes the absolute name
    alone, so the path is that of [<collection name>.abc] whatever the
    cache directory and the working directory are. *)
Theorem gen_cachepath_collection_absolute_name
    (context : bpy_context) (coll : ID) (rest : string) :
  id_name coll = String "/" rest ->
  gen_cachepath_collection context coll
  = Return (Path.of_string (id_name coll ++ ".abc")).
Proof.
  intros Hn. unfold gen_cachepath_collection, gen_filename_collection.
  cbn [Path.truth negb].
  assert (Habs : Path.is_absolute (Path.of_string (id_name coll ++ ".abc")) = true).
  { rewrite Hn. unfold Path.of_string, Path.is_absolute. cbn [Path.root append].
    destruct (String.prefix "//" (String "/" (rest ++ ".abc"))
              && negb (String.prefix "///" (String "/" (rest ++ ".abc"))))%bool;
      [reflexivity|].
    cbn [String.prefix].
    destruct (ascii_dec "/" "/") as [_|H]; [|contradiction].
    destruct (rest ++ ".abc")%string; reflexivity. }
  unfold Path.joinpath. rewrite Habs. unfold Path.absolute. rewrite Habs.
  reflexivity.
Qed.

Lemma gen_cachepath_collection_absolute_name_witness :
  gen_cachepath_collection sample_context (mk_ID "Collection" "/etc/hero" 7)
  = Return (Path.mk "/" ["etc"; "hero.abc"]).
Proof.
  apply (gen_cachepath_collection_absolute_name sample_context
           (mk_ID "Collection" "/etc/hero" 7) "etc/hero").
  reflexivity.
Defined.

(** ** Cancelling and invoking again *)

(** X24.  After the cancel operator and the modal step that follows it, the
    operator can be invoked again: while the log is behind the current
    revision, the invoke is accepted, and it forgets the process of the
    cancelled update, which was never polled nor read. *)
Theorem cancel_then_invoke
    (table : ascii -> option string) (spawn : string -> Popen) (w : world) :
  latest_log_rev (log (svn w)) < prefs_revision_number w ->
  let w1 := fst (fst (cancel_execute w)) in
  let w2 := fst (fst (modal table spawn w1)) in
  snd (modal table spawn w1) = Return FINISHED
  /\ popen w2 = popen w
  /\ (forall e, In e (snd (fst (modal table spawn w1))) -> exists l m, e = Report l m)
  /\ exists tr,
       invoke w2
       = (mk_world (mk_svn (log (svn w)) true false) (prefs_revision_number w)
            None (svn_log_file w),
          tr, Return RUNNING_MODAL).
Proof.
  intros Hlt. cbv zeta. unfold cancel_execute, modal.
  cbn [fst snd svn with_svn set_cancel_flag set_in_progress log_update_cancel_flag
         log_update_in_progress log popen prefs_revision_number svn_log_file].
  split; [reflexivity|]. split; [reflexivity|]. split.
  - intros e [<-|[]]. eauto.
  - unfold invoke.
    cbn [svn log_update_in_progress log prefs_revision_number with_popen with_svn
           set_in_progress set_cancel_flag log_update_cancel_flag popen svn_log_file].
    destruct (Z.geb_spec (latest_log_rev (log (svn w))) (prefs_revision_number w));
      [lia|].
    eexists. reflexivity.
Qed.

Lemma cancel_then_invoke_witness :
  exists tr,
    invoke (fst (fst (modal sample_status_char running_process
                        (fst (fst (cancel_execute world_polling))))))
    = (mk_world (mk_svn [] true false) 25 None None, tr, Return RUNNING_MODAL).
Proof.
  apply (proj2 (proj2 (proj2
           (cancel_then_invoke sample_status_char running_process world_polling
              ltac:(cbn; lia))))).
Defined.
